(** * TELEGRAMBOT: a shallow embedding of the two bots

    [Relay]  embeds src/bot.py (the file-relay / batch-send bot),
    [Lookup] embeds src/netlify/functions/bot.py (the media-lookup bot).

    Modelling conventions, shared by both modules.

    - Python [str] is [string]; the character-class builtins ([lower],
      [strip], [isdigit], [int]) are embedded on the ASCII range, and a
      character outside it is neither a letter, a digit nor white space.
    - Python [int] is [Z]; [//] and [%] by a positive divisor are [Z.div]
      and [Z.modulo] (both floor).
    - A [dict] with a fixed set of keys ([context.user_data], the entries of
      the file list) is a record whose fields are [option]s where the key
      can be absent; [chat_logs] is a [gmap].
    - A message sent back to the user ([reply_text]) is appended to an
      outbox.  A call to the outside world fails only in the ways the source
      handles: inside a [try ... except] or through a status code.  *)

From Stdlib Require Import ZArith Ascii String Decimal DecimalString DecimalPos Bool Lia.
From stdpp Require Import base tactics option list gmap strings.

Local Open Scope Z_scope.
Set Warnings "-register-all".

(** ** Python builtins *)

Module Py.

(** Exceptions carry the text that [str(e)] gives. *)
Record exn := Exn { exn_class : string; exn_msg : string }.

Inductive result (A : Type) : Type :=
| Ok (a : A)
| Raise (e : exn).
Arguments Ok {A} a.
Arguments Raise {A} e.

(** [str(n)] for an int. *)
Definition str (n : Z) : string := NilZero.string_of_int (Z.to_int n).

(** [s1 + s2 + ...] *)
Definition concat (l : list string) : string := foldr String.append "" l.

(** [sep.join(l)] *)
Fixpoint join (sep : string) (l : list string) : string :=
  match l with
  | [] => ""
  | [x] => x
  | x :: rest => x +:+ sep +:+ join sep rest
  end.

Definition is_upper (c : ascii) : bool :=
  let n := nat_of_ascii c in (65 <=? n)%nat && (n <=? 90)%nat.

Definition lower_char (c : ascii) : ascii :=
  if is_upper c then ascii_of_nat (nat_of_ascii c + 32) else c.

(** [s.lower()] *)
Fixpoint lower (s : string) : string :=
  match s with
  | EmptyString => EmptyString
  | String c rest => String (lower_char c) (lower rest)
  end.

(** [c.isspace()]: TAB, LF, VT, FF, CR, FS, GS, RS, US and SPACE. *)
Definition is_space (c : ascii) : bool :=
  let n := nat_of_ascii c in
  ((9 <=? n)%nat && (n <=? 13)%nat) || ((28 <=? n)%nat && (n <=? 32)%nat).

Fixpoint lstrip (s : string) : string :=
  match s with
  | EmptyString => EmptyString
  | String c rest => if is_space c then lstrip rest else s
  end.

Fixpoint rstrip (s : string) : string :=
  match s with
  | EmptyString => EmptyString
  | String c rest =>
      match rstrip rest with
      | EmptyString => if is_space c then EmptyString else String c EmptyString
      | r => String c r
      end
  end.

(** [s.strip()] *)
Definition strip (s : string) : string := rstrip (lstrip s).

Definition is_digit (c : ascii) : bool :=
  let n := nat_of_ascii c in (48 <=? n)%nat && (n <=? 57)%nat.

Fixpoint all_chars (p : ascii -> bool) (s : string) : bool :=
  match s with
  | EmptyString => true
  | String c rest => p c && all_chars p rest
  end.

(** [s.isdigit()]: false on the empty string. *)
Definition isdigit (s : string) : bool :=
  match s with
  | EmptyString => false
  | _ => all_chars is_digit s
  end.

(** [s.startswith(p)] *)
Fixpoint startswith (s p : string) : bool :=
  match p, s with
  | EmptyString, _ => true
  | String _ _, EmptyString => false
  | String a p', String b s' => if ascii_dec a b then startswith s' p' else false
  end.

(** [s[n:]] *)
Fixpoint slice_from (n : nat) (s : string) : string :=
  match n, s with
  | O, _ => s
  | S _, EmptyString => EmptyString
  | S n', String _ rest => slice_from n' rest
  end.

(** [s[:n]] *)
Fixpoint slice_to (n : nat) (s : string) : string :=
  match n, s with
  | O, _ => EmptyString
  | S _, EmptyString => EmptyString
  | S n', String c rest => String c (slice_to n' rest)
  end.

(** [needle in hay] *)
Fixpoint contains (needle hay : string) : bool :=
  startswith hay needle ||
  match hay with
  | EmptyString => false
  | String _ rest => contains needle rest
  end.

Definition digit_val (c : ascii) : Z := Z.of_nat (nat_of_ascii c) - 48.

(** Value of a run of decimal digits in which single underscores may
    separate digits, as [int] accepts them; [None] when malformed.
    [acc] is the value read so far and [after_digit] tells whether the
    previous character was a digit. *)
Fixpoint int_digits (after_digit : bool) (acc : Z) (s : string) : option Z :=
  match s with
  | EmptyString => if after_digit then Some acc else None
  | String c rest =>
      if is_digit c then int_digits true (10 * acc + digit_val c) rest
      else if ascii_dec c "_"
           then (if after_digit then int_digits false acc rest else None)
           else None
  end.

(** [int(s)] for a string: surrounding white space, an optional sign,
    decimal digits.  [None] stands for [ValueError]. *)
Definition int_of_str (s : string) : option Z :=
  match strip s with
  | String "-" rest => Z.opp <$> int_digits false 0 rest
  | String "+" rest => int_digits false 0 rest
  | body => int_digits false 0 body
  end.

(** [s.count(c)] for a character. *)
Fixpoint count_char (c : ascii) (s : string) : nat :=
  match s with
  | EmptyString => O
  | String a rest => ((if Ascii.eqb a c then 1 else 0) + count_char c rest)%nat
  end.

(** [s.split(sep)] for a non-empty [sep]: [cur] is the piece being read
    and [skip] counts the characters of a separator still to pass. *)
Fixpoint split_go (sep : string) (skip : nat) (cur s : string) : list string :=
  match s with
  | EmptyString => [cur]
  | String c rest =>
      match skip with
      | S k => split_go sep k cur rest
      | O =>
          if startswith s sep
          then cur :: split_go sep (String.length sep - 1) "" rest
          else split_go sep O (cur +:+ String c EmptyString) rest
      end
  end.

Definition split (s sep : string) : list string := split_go sep 0 "" s.

(** [s.replace(old, new)] *)
Fixpoint intersperse_chars (new s : string) : string :=
  match s with
  | EmptyString => EmptyString
  | String c rest => String c (new +:+ intersperse_chars new rest)
  end.

Definition replace (s old new : string) : string :=
  match old with
  | EmptyString => new +:+ intersperse_chars new s
  | _ => join new (split s old)
  end.

(** [f"{n:02d}"]: minimum width two, padded with zeros.  A negative
    number already has width two. *)
Definition fmt_02d (n : Z) : string :=
  let s := str n in
  if (String.length s <? 2)%nat then "0" +:+ s else s.

End Py.

(** ** src/bot.py: the file-relay bot *)

Module Relay.
Import Py.

(** *** Values read back from the JSON files

    (a JSON number with a fraction plays no part in what follows). *)

Inductive value : Type :=
| VNone
| VBool (b : bool)
| VInt (n : Z)
| VStr (s : string)
| VList (l : list value)
| VDict (kv : list (string * value)).

(** What a path of the disk holds: a file that cannot be opened or read,
    or a text on which [json.load] either fails ([None]) or gives a
    value.  A path absent from the disk is a missing file. *)
Inductive file : Type :=
| Unreadable
| Text (parsed : option value).

Definition GROUPS_FILE : string := "groups.json".
Definition PASSWORD_FILE : string := "password.json".

Definition FileNotFoundError : exn := Exn "FileNotFoundError" "No such file or directory".
Definition OSError : exn := Exn "OSError" "cannot read".
Definition JSONDecodeError : exn := Exn "JSONDecodeError" "Expecting value".
Definition AttributeError (what : string) : exn := Exn "AttributeError" what.
Definition IndexError : exn := Exn "IndexError" "list index out of range".

(** [with open(path, "r") as f: json.load(f)] *)
Definition json_load (disk : gmap string file) (path : string) : result value :=
  match disk !! path with
  | None => Raise FileNotFoundError
  | Some Unreadable => Raise OSError
  | Some (Text None) => Raise JSONDecodeError
  | Some (Text (Some v)) => Ok v
  end.

(** [with open(path, "w") as f: json.dump(v, f)] *)
Definition json_dump (disk : gmap string file) (path : string) (v : value)
  : gmap string file :=
  <[path := Text (Some v)]> disk.

Fixpoint assoc (k : string) (kv : list (string * value)) : option value :=
  match kv with
  | [] => None
  | (k', v) :: rest => if String.eqb k k' then Some v else assoc k rest
  end.

(** [d.get(k, dflt)]; only a dict has the method. *)
Definition dict_get (d : value) (k : string) (dflt : value) : result value :=
  match d with
  | VDict kv => Ok (default dflt (assoc k kv))
  | _ => Raise (AttributeError "object has no attribute 'get'")
  end.

(** [d.items()] *)
Definition dict_items (d : value) : result (list (string * value)) :=
  match d with
  | VDict kv => Ok kv
  | _ => Raise (AttributeError "object has no attribute 'items'")
  end.

(** [try: body  except Exception: handler] *)
Definition try_except {A} (body : result A) (handler : exn -> A) : A :=
  match body with
  | Ok a => a
  | Raise e => handler e
  end.

Definition bind {A B} (m : result A) (k : A -> result B) : result B :=
  match m with
  | Ok a => k a
  | Raise e => Raise e
  end.

Definition load_groups (disk : gmap string file) : value :=
  try_except (json_load disk GROUPS_FILE) (fun _ => VDict []).

Definition save_groups (disk : gmap string file) (groups : value) : gmap string file :=
  json_dump disk GROUPS_FILE groups.

Definition load_password (disk : gmap string file) : value :=
  try_except
    (bind (json_load disk PASSWORD_FILE)
          (fun data => dict_get data "password" (VStr "admin")))
    (fun _ => VStr "admin").

Definition save_password (disk : gmap string file) (new_pass : string)
  : gmap string file :=
  json_dump disk PASSWORD_FILE (VDict [("password", VStr new_pass)]).

(** *** Formatting *)

(** Round [n / d] to an integer, ties to the even one ([0 < d]). *)
Definition round_half_even (n d : Z) : Z :=
  let q := n / d in
  let r := n mod d in
  if 2 * r <? d then q
  else if d <? 2 * r then q + 1
  else if Z.even q then q else q + 1.

(** A finite binary64 number, as [mant * 2 ^ expo]. *)
Record float := Float { mant : Z; expo : Z }.

(** The float nearest to a positive int: 53 significant bits, ties to
    even.  (Ints from [2 ^ 1024] on, which raise OverflowError, are far
    beyond any file size and are not singled out.) *)
Definition float_of_int (n : Z) : float :=
  let e := Z.log2 n - 52 in
  if e <=? 0 then Float n 0 else Float (round_half_even n (2 ^ e)) e.

(** [x / 1024] on a float: an exact change of exponent. *)
Definition div_1024 (x : float) : float := Float (mant x) (expo x - 10).

(** [n / 1024] on an int is the correctly rounded quotient; the divisor
    being a power of two, it is the rounded [n] with the exponent
    lowered. *)
Definition int_div_1024 (n : Z) : float := div_1024 (float_of_int n).

(** The integer nearest to [100 * x], ties to even: the digits that
    [.2f] prints for a non-negative [x]. *)
Definition hundredths (x : float) : Z :=
  if 0 <=? expo x then mant x * 100 * 2 ^ expo x
  else round_half_even (mant x * 100) (2 ^ (- expo x)).

(** [q] is an integer nearest to [100 * num / den]. *)
Definition nearest_hundredth (q num den : Z) : Prop :=
  2 * Z.abs (100 * num - den * q) <= den.

Definition two_digits (n : Z) : string :=
  String (ascii_of_nat (48 + Z.to_nat (n / 10)))
    (String (ascii_of_nat (48 + Z.to_nat (n mod 10))) EmptyString).

Definition decimal_2 (q : Z) : string :=
  str (q / 100) +:+ "." +:+ two_digits (q mod 100).

(** [f"{x:.2f}"] for a non-negative float. *)
Definition fmt_2f (x : float) : string := decimal_2 (hundredths x).

Definition format_file_size (size_bytes : option Z) : string :=
  match size_bytes with
  | None => "Unknown"
  | Some size_bytes =>
      if size_bytes <? 1024 then str size_bytes +:+ " B"
      else if size_bytes <? 1024 * 1024
           then fmt_2f (int_div_1024 size_bytes) +:+ " KB"
      else if size_bytes <? 1024 * 1024 * 1024
           then fmt_2f (div_1024 (int_div_1024 size_bytes)) +:+ " MB"
      else fmt_2f (div_1024 (div_1024 (int_div_1024 size_bytes))) +:+ " GB"
  end.

(** [int(v)]: the identity on an int, the parser on a string, TypeError
    on the rest. *)
Definition py_int (v : value) : result Z :=
  match v with
  | VInt n => Ok n
  | VBool b => Ok (if b then 1 else 0)
  | VStr s =>
      match int_of_str s with
      | Some n => Ok n
      | None => Raise (Exn "ValueError" "invalid literal for int()")
      end
  | _ => Raise (Exn "TypeError" "int() argument must be a string or a number")
  end.

Definition format_duration (seconds : value) : string :=
  match py_int seconds with
  | Raise _ => ""
  | Ok seconds =>
      let h := seconds / 3600 in
      let m := (seconds mod 3600) / 60 in
      let s := seconds mod 60 in
      if 0 <? h
      then fmt_02d h +:+ ":" +:+ fmt_02d m +:+ ":" +:+ fmt_02d s
      else fmt_02d m +:+ ":" +:+ fmt_02d s
  end.

(** *** Telegram objects *)

Record Document := { doc_file_id : string; doc_file_name : option string;
                     doc_file_size : option Z }.
Record PhotoSize := { ph_file_id : string; ph_file_size : option Z }.
Record Video := { vid_file_id : string; vid_file_name : option string;
                  vid_file_size : option Z; vid_duration : Z }.

Record Message := {
  text : option string;
  document : option Document;
  photo : list PhotoSize;
  video : option Video;
  message_id : Z }.

Record Chat := {
  chat_id : Z;
  chat_type : string;
  chat_title : option string;
  chat_username : option string }.

(** An update is a command with its arguments, another message, or the
    press of an inline button. *)
Inductive Update : Type :=
| UCommand (name : string) (args : list string) (chat : Chat)
| UMessage (msg : Message) (chat : Chat)
| UCallback (data : string).

(** What the bot answers into the conversation. *)
Inductive Out : Type :=
| Reply (body : string)
| ReplyKeyboard (body : string) (buttons : list (value * string)).

(** The message a send call returns; [sent.chat.id] is an int. *)
Record Sent := { sent_chat_id : Z; sent_message_id : Z }.

(** The sending half of the platform, over some state [W] of the outside
    world.  Arguments: destination, file id or text, caption. *)
Class BotApi (W : Type) := {
  send_document : W -> string -> string -> string -> W * result Sent;
  send_photo : W -> string -> string -> string -> W * result Sent;
  send_video : W -> string -> string -> string -> W * result Sent;
  send_message : W -> string -> string -> W * result unit }.

(** *** The per-user session *)

Inductive Attachment : Type :=
| ADocument (d : Document)
| APhoto (p : PhotoSize)
| AVideo (v : Video).

Inductive FileType : Type := TDocument | TPhoto | TVideo.

Record FDict := {
  file_info : Attachment;
  file_type : FileType;
  file_name : option string;
  additional : string;
  prefix : option string }.

Definition set_prefix (f : FDict) (p : option string) : FDict :=
  {| file_info := file_info f; file_type := file_type f;
     file_name := file_name f; additional := additional f; prefix := p |}.

Record UserData := {
  authenticated : option bool;
  files : option (list FDict);
  current_index : option nat;
  target : option string }.

Definition set_authenticated (ud : UserData) (b : bool) : UserData :=
  {| authenticated := Some b; files := files ud;
     current_index := current_index ud; target := target ud |}.
Definition set_files (ud : UserData) (l : list FDict) : UserData :=
  {| authenticated := authenticated ud; files := Some l;
     current_index := current_index ud; target := target ud |}.
Definition set_current_index (ud : UserData) (i : nat) : UserData :=
  {| authenticated := authenticated ud; files := files ud;
     current_index := Some i; target := target ud |}.
Definition set_target (ud : UserData) (t : string) : UserData :=
  {| authenticated := authenticated ud; files := files ud;
     current_index := current_index ud; target := Some t |}.

Record Entry := { entry_message_id : Z; snippet : string }.

(** The state the handlers read and write: the two JSON files, the
    global [chat_logs], one user's [user_data] and the replies made. *)
Record State := {
  disk : gmap string file;
  chat_logs : gmap string (list Entry);
  user_data : UserData;
  outbox : list Out }.

Definition with_disk (st : State) (d : gmap string file) : State :=
  {| disk := d; chat_logs := chat_logs st; user_data := user_data st;
     outbox := outbox st |}.
Definition with_logs (st : State) (l : gmap string (list Entry)) : State :=
  {| disk := disk st; chat_logs := l; user_data := user_data st;
     outbox := outbox st |}.
Definition with_user_data (st : State) (ud : UserData) : State :=
  {| disk := disk st; chat_logs := chat_logs st; user_data := ud;
     outbox := outbox st |}.
Definition say (st : State) (o : Out) : State :=
  {| disk := disk st; chat_logs := chat_logs st; user_data := user_data st;
     outbox := outbox st ++ [o] |}.
Definition reply_text (st : State) (body : string) : State := say st (Reply body).

(** States of the /batchsend conversation; [END] is
    [ConversationHandler.END]. *)
Inductive ConvState : Type := END | BATCH_COLLECT | BATCH_GET_PREFIX | BS_TARGET.

(** A handler returns the next state, or [None] to stay, or raises. *)
Definition Ret : Type := result (option ConvState).

(** *** Global message logger *)

Definition loggable (chat : Chat) : bool :=
  existsb (String.eqb (chat_type chat)) ["group"; "supergroup"; "channel"].

(** [(msg.text or "")[:30] or "Non-text"] *)
Definition make_snippet (msg : Message) : string :=
  match slice_to 30 (default "" (text msg)) with
  | EmptyString => "Non-text"
  | s => s
  end.

Definition log_messages (chat : Chat) (msg : option Message) (st : State) : State :=
  if negb (loggable chat) then st
  else
    let chat_id := str (chat_id chat) in
    match msg with
    | None => st
    | Some msg =>
        let entry := {| entry_message_id := message_id msg;
                        snippet := make_snippet msg |} in
        let log := default [] (chat_logs st !! chat_id) ++ [entry] in
        let log := if (100 <? length log)%nat
                   then drop (length log - 100)%nat log else log in
        with_logs st (<[chat_id := log]> (chat_logs st))
    end.

(** The logger over a sequence of updates, oldest first. *)
Definition log_all (events : list (Chat * option Message)) (st : State) : State :=
  foldl (fun st ev => log_messages ev.1 ev.2 st) st events.

(** The entry that an update adds to the log of chat [cid], if any. *)
Definition arrival (cid : string) (ev : Chat * option Message) : option Entry :=
  if loggable ev.1 && String.eqb (str (chat_id ev.1)) cid
  then (fun msg => {| entry_message_id := message_id msg;
                      snippet := make_snippet msg |}) <$> ev.2
  else None.

Definition arrivals (cid : string) (events : list (Chat * option Message))
  : list Entry :=
  omap (arrival cid) events.

(** The [n] most recent elements of a list in arrival order. *)
Definition last_n {A} (n : nat) (l : list A) : list A := drop (length l - n)%nat l.

Definition log_of (st : State) (cid : string) : list Entry :=
  default [] (chat_logs st !! cid).

(** *** Authentication *)

Definition is_authenticated (ud : UserData) : bool :=
  default false (authenticated ud).

Definition denied (st : State) : State * Ret :=
  (reply_text st "Access denied. Please login using /login <password>.", Ok None).

Definition require_login {A} (func : A -> State -> State * Ret)
  : A -> State -> State * Ret :=
  fun a st =>
    if negb (is_authenticated (user_data st)) then denied st else func a st.

(** [a == v] for a string [a]: only an equal string is equal. *)
Definition str_eq (a : string) (v : value) : bool :=
  match v with
  | VStr s => String.eqb a s
  | _ => false
  end.

Definition login (args : list string) (st : State) : State :=
  match args with
  | [] => reply_text st "Usage: /login <password>"
  | a0 :: _ =>
      if str_eq a0 (load_password (disk st))
      then reply_text (with_user_data st (set_authenticated (user_data st) true))
                      "Login successful!"
      else reply_text st "Incorrect password."
  end.

Definition changepassword : list string -> State -> State * Ret :=
  require_login (fun args st =>
    match args with
    | a0 :: a1 :: _ =>
        if negb (str_eq a0 (load_password (disk st)))
        then (reply_text st "Old password incorrect.", Ok None)
        else (reply_text (with_disk st (save_password (disk st) a1))
                         "Password changed successfully.", Ok None)
    | _ => (reply_text st "Usage: /changepassword <old> <new>", Ok None)
    end).

(** *** Table of contents *)

(** [f"{o}"] for a name that may be [None]. *)
Definition fmt_opt (o : option string) : string := default "None" o.

(** The second piece of [data.split(tag)]. *)
Definition callback_arg (data tag : string) : result string :=
  match split data tag !! 1%nat with
  | Some a => Ok a
  | None => Raise IndexError
  end.

Definition toc_link_id (group_id : string) : string :=
  if startswith group_id "-100" then slice_from 4 group_id else group_id.

Definition toc_line (link_id : string) (m : Entry) : string :=
  "[Msg " +:+ str (entry_message_id m) +:+ ": " +:+ snippet m +:+ "]("
    +:+ "https://t.me/c/" +:+ link_id +:+ "/" +:+ str (entry_message_id m)
    +:+ ")".

Definition toc_select_group : string -> State -> State * Ret :=
  require_login (fun data st =>
    match callback_arg data "toc_group:" with
    | Raise e => (st, Raise e)
    | Ok group_id =>
        let msgs := default [] (chat_logs st !! group_id) in
        let body :=
          match msgs with
          | [] => "No messages logged for this group."
          | _ =>
              let link_id := toc_link_id group_id in
              join (String "010" EmptyString) (toc_line link_id <$> msgs)
          end in
        (reply_text st body, Ok (Some END))
    end).

(** *** The /batchsend conversation *)

Definition batchsend_command : unit -> State -> State * Ret :=
  require_login (fun _ st =>
    let st := with_user_data st (set_files (user_data st) []) in
    (reply_text st "Batch Send: Send files one by one. When finished, type /done.",
     Ok (Some BATCH_COLLECT))).

Definition truthy (o : option string) : bool :=
  match o with
  | Some (String _ _) => true
  | _ => false
  end.

Definition new_fdict (info : Attachment) (ty : FileType) (name : option string)
           (extra : string) : FDict :=
  {| file_info := info; file_type := ty; file_name := name;
     additional := extra; prefix := None |}.

(** The attachment of a message: the document, else the last (largest)
    photo size, else the video. *)
Definition classify (msg : Message) : option FDict :=
  match document msg with
  | Some d => Some (new_fdict (ADocument d) TDocument (doc_file_name d) "")
  | None =>
      match last (photo msg) with
      | Some p => Some (new_fdict (APhoto p) TPhoto (Some "photo.jpg") "")
      | None =>
          match video msg with
          | Some v =>
              Some (new_fdict (AVideo v) TVideo
                      (if truthy (vid_file_name v) then vid_file_name v
                       else Some "video.mp4")
                      (str (vid_duration v)))
          | None => None
          end
      end
  end.

Definition bs_collect_file : Message -> State -> State * Ret :=
  require_login (fun msg st =>
    match classify msg with
    | None =>
        (reply_text st "Unsupported file type. Send a document, photo, or video.",
         Ok (Some BATCH_COLLECT))
    | Some fdict =>
        let fs := default [] (files (user_data st)) ++ [fdict] in
        let st := with_user_data st (set_files (user_data st) fs) in
        (reply_text st ("File received. Total files: "
                          +:+ str (Z.of_nat (length fs))
                          +:+ ". Send another file or type /done."),
         Ok (Some BATCH_COLLECT))
    end).

Definition prefix_prompt (i : nat) (f : FDict) : string :=
  "Batch Send: For file " +:+ str (Z.of_nat i) +:+ " (" +:+ fmt_opt (file_name f)
    +:+ "), enter a prefix (or '-' for default).".

Definition batch_done : unit -> State -> State * Ret :=
  require_login (fun _ st =>
    match default [] (files (user_data st)) with
    | [] => (reply_text st "No files received. Batch send cancelled.", Ok (Some END))
    | current :: _ =>
        let st := with_user_data st (set_current_index (user_data st) 0) in
        (reply_text st (prefix_prompt 1 current), Ok (Some BATCH_GET_PREFIX))
    end).

(** [current["file_name"] if text in ["-", ""] else text] *)
Definition choose_prefix (current : FDict) (text : string) : option string :=
  if existsb (String.eqb text) ["-"; ""] then file_name current else Some text.

Definition target_buttons (groups : list (string * value)) : list (value * string) :=
  (fun '(chat_id, title) => (title, "bs_target:" +:+ chat_id)) <$> groups.

(** [msg.text.strip() if msg.text else ""] *)
Definition stripped_text (msg : Message) : string :=
  if truthy (text msg) then strip (default "" (text msg)) else "".

Definition bs_receive_prefix : Message -> State -> State * Ret :=
  require_login (fun msg st =>
    let text := stripped_text msg in
    let idx := default 0%nat (current_index (user_data st)) in
    let fs := default [] (files (user_data st)) in
    match fs !! idx with
    | None => (st, Raise IndexError)
    | Some current =>
        let fs := <[idx := set_prefix current (choose_prefix current text)]> fs in
        let idx := S idx in
        let st := with_user_data st
                    (set_current_index (set_files (user_data st) fs) idx) in
        if (idx <? length fs)%nat
        then
          match fs !! idx with
          | None => (st, Raise IndexError)
          | Some next_file =>
              (reply_text st (prefix_prompt (idx + 1) next_file),
               Ok (Some BATCH_GET_PREFIX))
          end
        else
          match dict_items (load_groups (disk st)) with
          | Raise e => (st, Raise e)
          | Ok groups =>
              (say st (ReplyKeyboard
                         "Batch Send: Select target group to receive all messages:"
                         (target_buttons groups)),
               Ok (Some BS_TARGET))
          end
    end).

Definition file_id_of (a : Attachment) : string :=
  match a with
  | ADocument d => doc_file_id d
  | APhoto p => ph_file_id p
  | AVideo v => vid_file_id v
  end.

(** [getattr(file_info, "file_size", None)] *)
Definition file_size_of (a : Attachment) : option Z :=
  match a with
  | ADocument d => doc_file_size d
  | APhoto p => ph_file_size p
  | AVideo v => vid_file_size v
  end.

(** [str(cid)[4:]] when [str(cid)] starts with "-100"; [cid] is
    [sent.chat.id], an int, so that the [isinstance] test holds. *)
Definition link_cid (cid : Z) : string :=
  if startswith (str cid) "-100" then slice_from 4 (str cid) else str cid.

Definition hyperlink_url (sent : Sent) : string :=
  "https://t.me/c/" +:+ link_cid (sent_chat_id sent) +:+ "/"
    +:+ str (sent_message_id sent).

Definition nonempty (s : string) : bool :=
  match s with
  | EmptyString => false
  | _ => true
  end.

Definition hyperlink_msg (fdict : FDict) (sent : Sent) : string :=
  let size_str := format_file_size (file_size_of (file_info fdict)) in
  let dur_raw := additional fdict in
  let dur_str := if nonempty dur_raw && isdigit dur_raw
                 then format_duration (VStr dur_raw) else "" in
  let suffix := " (Size: " +:+ size_str in
  let suffix := if nonempty dur_str
                then suffix +:+ ", Duration: " +:+ dur_str else suffix in
  let suffix := suffix +:+ ")" in
  let hyperlink_text := fmt_opt (prefix fdict) +:+ suffix in
  "[" +:+ hyperlink_text +:+ "](" +:+ hyperlink_url sent +:+ ")".

Section Dispatch.
Context {W : Type} `{BotApi W}.

Definition send_file (w : W) (target : string) (fdict : FDict) : W * result Sent :=
  let fid := file_id_of (file_info fdict) in
  match file_type fdict with
  | TDocument =>
      send_document w target fid ("Forwarded file: " +:+ fmt_opt (file_name fdict))
  | TPhoto => send_photo w target fid "Forwarded photo"
  | TVideo => send_video w target fid "Forwarded video"
  end.

Definition success_line (i : nat) : string :=
  "File " +:+ str (Z.of_nat i) +:+ " sent successfully.".
Definition error_line (i : nat) (e : exn) : string :=
  "File " +:+ str (Z.of_nat i) +:+ " error: " +:+ exn_msg e.

(** One turn of the loop: the [try] block and its [except]. *)
Definition dispatch_one (w : W) (target : string) (i : nat) (fdict : FDict)
  : W * string :=
  match send_file w target fdict with
  | (w, Raise e) => (w, error_line i e)
  | (w, Ok sent) =>
      match send_message w target (hyperlink_msg fdict sent) with
      | (w, Raise e) => (w, error_line i e)
      | (w, Ok _) => (w, success_line i)
      end
  end.

(** [for i, fdict in enumerate(files, start=i)], collecting [results]. *)
Fixpoint dispatch_all (w : W) (target : string) (i : nat) (fs : list FDict)
  : W * list string :=
  match fs with
  | [] => (w, [])
  | fdict :: rest =>
      let '(w, line) := dispatch_one w target i fdict in
      let '(w, results) := dispatch_all w target (S i) rest in
      (w, line :: results)
  end.

Definition bs_select_target (data : string) (w : W) (st : State)
  : W * (State * Ret) :=
  if negb (is_authenticated (user_data st)) then (w, denied st)
  else
    match callback_arg data "bs_target:" with
    | Raise e => (w, (st, Raise e))
    | Ok target =>
        let st := with_user_data st (set_target (user_data st) target) in
        let '(w, results) :=
          dispatch_all w target 1 (default [] (files (user_data st))) in
        (w, (reply_text st ("Batch Send Completed:" +:+ String "010" EmptyString
                              +:+ join (String "010" EmptyString) results),
             Ok (Some END)))
    end.

(** [ConversationHandler._update_state]: a returned state is entered,
    [None] or an exception keeps the current one. *)
Definition update_state (c : ConvState) (r : Ret) : ConvState :=
  match r with
  | Ok (Some c') => c'
  | _ => c
  end.

(** What a complete labeling phase is expected to leave behind: the
    prompts in collection order, the offer of destinations, and each
    file with the label of its reply. *)
Definition label_prompts (fs : list FDict) : list Out :=
  imap (fun i f => Reply (prefix_prompt (S i) f)) fs.

Definition target_offer (d : gmap string file) : list Out :=
  match dict_items (load_groups d) with
  | Ok groups =>
      [ReplyKeyboard "Batch Send: Select target group to receive all messages:"
         (target_buttons groups)]
  | Raise _ => []
  end.

Definition state_after_labels (d : gmap string file) : ConvState :=
  match dict_items (load_groups d) with
  | Ok _ => BS_TARGET
  | Raise _ => BATCH_GET_PREFIX
  end.

Definition labelled (fs : list FDict) (replies : list Message) : list FDict :=
  zip_with (fun f m => set_prefix f (choose_prefix f (stripped_text m))) fs replies.

Definition is_command (u : Update) (name : string) : bool :=
  match u with
  | UCommand n _ _ => String.eqb n name
  | _ => false
  end.

(** [bs_conv] as [main] builds it: with [allow_reentry] the entry
    point is tried first, then the handlers of the current state, then
    the fallback. *)
Definition bs_conv (u : Update) (c : ConvState) (w : W) (st : State)
  : W * State * ConvState :=
  let after (w : W) (sr : State * Ret) := (w, sr.1, update_state c sr.2) in
  if is_command u "batchsend" then after w (batchsend_command tt st)
  else
    match c, u with
    | END, _ => (w, st, c)
    | BATCH_COLLECT, UMessage msg _ => after w (bs_collect_file msg st)
    | BATCH_COLLECT, UCommand _ _ _ =>
        if is_command u "done" then after w (batch_done tt st)
        else if is_command u "cancel" then (w, st, END)
        else (w, st, c)
    | BATCH_GET_PREFIX, UMessage msg _ =>
        if truthy (text msg) then after w (bs_receive_prefix msg st)
        else (w, st, c)
    | BS_TARGET, UCallback data =>
        if startswith data "bs_target:"
        then let '(w, sr) := bs_select_target data w st in after w sr
        else (w, st, c)
    | _, _ => if is_command u "cancel" then (w, st, END) else (w, st, c)
    end.

(** A run of the conversation over a list of updates. *)
Fixpoint run (us : list Update) (c : ConvState) (w : W) (st : State)
  : W * State * ConvState :=
  match us with
  | [] => (w, st, c)
  | u :: rest =>
      let '(w, st, c) := bs_conv u c w st in
      run rest c w st
  end.
End Dispatch.

(** *** Group management *)

Definition TypeError (what : string) : exn := Exn "TypeError" what.
Definition KeyError (k : string) : exn := Exn "KeyError" k.

(** [key in groups]: a key of a dict, an element of a list, a substring
    of a string; the other values are not iterable. *)
Definition value_contains (groups : value) (key : string) : result bool :=
  match groups with
  | VDict kv => Ok (match assoc key kv with Some _ => true | None => false end)
  | VList l => Ok (existsb (str_eq key) l)
  | VStr s => Ok (contains key s)
  | _ => Raise (TypeError "argument is not iterable")
  end.

(** [groups[key]] for a string [key]. *)
Definition value_getitem (groups : value) (key : string) : result value :=
  match groups with
  | VDict kv =>
      match assoc key kv with
      | Some v => Ok v
      | None => Raise (KeyError key)
      end
  | VList _ | VStr _ => Raise (TypeError "indices must be integers")
  | _ => Raise (TypeError "object is not subscriptable")
  end.

(** A dict keeps the place of a key it has and puts a new key last. *)
Fixpoint assoc_set (k : string) (v : value) (kv : list (string * value))
  : list (string * value) :=
  match kv with
  | [] => [(k, v)]
  | (k', v') :: rest =>
      if String.eqb k k' then (k', v) :: rest else (k', v') :: assoc_set k v rest
  end.

(** [groups[key] = v] *)
Definition value_setitem (groups : value) (key : string) (v : value) : result value :=
  match groups with
  | VDict kv => Ok (VDict (assoc_set key v kv))
  | _ => Raise (TypeError "object does not support item assignment")
  end.

(** [if groups:] *)
Definition value_truthy (v : value) : bool :=
  match v with
  | VNone => false
  | VBool b => b
  | VInt n => negb (n =? 0)
  | VStr s => nonempty s
  | VList l => match l with [] => false | _ => true end
  | VDict kv => match kv with [] => false | _ => true end
  end.

(** [chat.title if chat.title else (chat.username if chat.username else
    "Unnamed Chat")] *)
Definition chat_display (chat : Chat) : string :=
  if truthy (chat_title chat) then default "" (chat_title chat)
  else if truthy (chat_username chat) then default "" (chat_username chat)
  else "Unnamed Chat".

Section Registry.
(** [repr] of a list or of a dict, which [f"{v}"] prints for such a value;
    it is left open. *)
Variable repr_container : value -> string.

(** [f"{v}"] *)
Definition fmt_value (v : value) : string :=
  match v with
  | VNone => "None"
  | VBool b => if b then "True" else "False"
  | VInt n => str n
  | VStr s => s
  | _ => repr_container v
  end.

Definition addgroup : Chat -> State -> State * Ret :=
  require_login (fun chat st =>
    let groups := load_groups (disk st) in
    let chat_id := str (chat_id chat) in
    let chat_title := chat_display chat in
    match value_contains groups chat_id with
    | Raise e => (st, Raise e)
    | Ok true =>
        match value_getitem groups chat_id with
        | Raise e => (st, Raise e)
        | Ok taken =>
            (reply_text st ("Chat '" +:+ fmt_value taken +:+ "' is already added."),
             Ok None)
        end
    | Ok false =>
        match value_setitem groups chat_id (VStr chat_title) with
        | Raise e => (st, Raise e)
        | Ok groups =>
            (reply_text (with_disk st (save_groups (disk st) groups))
                        ("Chat '" +:+ chat_title +:+ "' added successfully."),
             Ok None)
        end
    end).

Definition addprivatechannel : list string -> State -> State * Ret :=
  require_login (fun args st =>
    match args with
    | [] =>
        (reply_text st "Usage: /addprivatechannel <channel_id> [custom name]",
         Ok None)
    | channel_id :: more =>
        if negb (startswith channel_id "-100")
        then (reply_text st "Channel ID should start with -100.", Ok None)
        else
          let custom_name :=
            match more with
            | [] => "PrivateChannel_" +:+ channel_id
            | _ => strip (join " " more)
            end in
          let groups := load_groups (disk st) in
          match value_contains groups channel_id with
          | Raise e => (st, Raise e)
          | Ok true =>
              match value_getitem groups channel_id with
              | Raise e => (st, Raise e)
              | Ok taken =>
                  (reply_text st ("Channel '" +:+ fmt_value taken
                                    +:+ "' is already added."), Ok None)
              end
          | Ok false =>
              match value_setitem groups channel_id (VStr custom_name) with
              | Raise e => (st, Raise e)
              | Ok groups =>
                  (reply_text (with_disk st (save_groups (disk st) groups))
                              ("Private channel '" +:+ custom_name
                                 +:+ "' added successfully."),
                   Ok None)
              end
          end
    end).

Definition group_line (item : string * value) : string :=
  "- " +:+ fmt_value item.2 +:+ " (ID: " +:+ item.1 +:+ ")".

Definition listgroups : unit -> State -> State * Ret :=
  require_login (fun _ st =>
    let groups := load_groups (disk st) in
    if negb (value_truthy groups)
    then (reply_text st "No groups available. Use /addgroup to add one.", Ok None)
    else
      match dict_items groups with
      | Raise e => (st, Raise e)
      | Ok items =>
          (reply_text st ("Available Groups:" +:+ String "010" EmptyString
                            +:+ join (String "010" EmptyString) (group_line <$> items)),
           Ok None)
      end).

Definition start_text : string :=
  join (String "010" EmptyString)
    ["Welcome to BatchSend Bot (Protected)!";
     "";
     "Commands:";
     "/login <password> – Log in (default: admin)";
     "/changepassword <old> <new> – Change password";
     "/addgroup – Add current chat to group list";
     "/addprivatechannel <channel_id> [custom name] – Add a private channel manually";
     "/toc – Get a Table of Contents from a selected group";
     "/batchsend – Batch send files";
     "/commands – Show command list"].

Definition start (st : State) : State := reply_text st start_text.

Definition commands_list (st : State) : State := start st.

(** The plain command handlers that [main] registers, in its order; an
    update that none of them takes is left alone here. *)
Definition command_handlers (u : Update) (st : State) : State :=
  match u with
  | UCommand name args chat =>
      if String.eqb name "start" then start st
      else if String.eqb name "commands" then commands_list st
      else if String.eqb name "login" then login args st
      else if String.eqb name "changepassword" then (changepassword args st).1
      else if String.eqb name "addgroup" then (addgroup chat st).1
      else if String.eqb name "addprivatechannel" then (addprivatechannel args st).1
      else if String.eqb name "listgroups" then (listgroups tt st).1
      else st
  | _ => st
  end.

Definition command_run (us : list Update) (st : State) : State :=
  foldl (fun st u => command_handlers u st) st us.
End Registry.

(** *** The /toc conversation *)

(** Its states: [TOC_END] is [ConversationHandler.END]. *)
Inductive TocState : Type := TOC_END | TOC_CHOOSE.

Definition toc_buttons (groups : list (string * value)) : list (value * string) :=
  (fun '(chat_id, title) => (title, "toc_group:" +:+ chat_id)) <$> groups.

(** [toc_command], with the test of [require_login] written out. *)
Definition toc_command (st : State) : State * result (option TocState) :=
  if negb (is_authenticated (user_data st))
  then (reply_text st "Access denied. Please login using /login <password>.", Ok None)
  else
    let groups := load_groups (disk st) in
    if negb (value_truthy groups)
    then (reply_text st "No groups available. Use /addgroup to add one.",
          Ok (Some TOC_END))
    else
      match dict_items groups with
      | Raise e => (st, Raise e)
      | Ok items =>
          (say st (ReplyKeyboard "Select a group for TOC:" (toc_buttons items)),
           Ok (Some TOC_CHOOSE))
      end.

(** [toc_conv] as [main] builds it: the entry point first (re-entry is
    allowed), then the handler of the current state, then the fallback. *)
Definition toc_conv (u : Update) (c : TocState) (st : State) : State * TocState :=
  if is_command u "toc"
  then
    let sr := toc_command st in
    (sr.1, match sr.2 with Ok (Some c') => c' | _ => c end)
  else
    match c, u with
    | TOC_END, _ => (st, c)
    | TOC_CHOOSE, UCallback data =>
        if startswith data "toc_group:"
        then
          let sr := toc_select_group data st in
          (sr.1, match sr.2 with Ok (Some _) => TOC_END | _ => c end)
        else (st, c)
    | _, _ => if is_command u "cancel" then (st, TOC_END) else (st, c)
    end.

End Relay.

(** ** src/netlify/functions/bot.py: the media-lookup bot *)

Module Lookup.
Import Py.

Definition MAX_CAPTION_LENGTH : nat := 1024.

Inductive ConvState : Type := END | CONFIRM | ASK_IMAGES | ASK_TRANSLATE | ASK_SEASON.

(** One search result.  A field is [None] when its key is absent; the
    date fields stand for the "to" entry of "aired" and "published". *)
Record Item := {
  item_title : option string;
  item_synopsis : option string;
  item_genres : list string;
  item_aired_to : option string;
  item_published_to : option string;
  item_broadcast : option string;
  item_image_url : option string;
  item_mal_id : option Z }.

Record Character := { char_name : option string; char_image_url : option string }.

(** A response of the search service: its status code and the "data"
    entry of its JSON body. *)
Record Response (A : Type) := { status_code : Z; data : option (list A) }.
Arguments status_code {A} r.
Arguments data {A} r.

(** The outside world: the search service by URL, the translator, and
    the sending of a photo with its caption. *)
Class Services (W : Type) := {
  requests_get : W -> string -> W * Response Item;
  requests_get_characters : W -> string -> W * Response Character;
  translate : W -> string -> W * result string;
  reply_photo : W -> string -> string -> W * result unit }.

Record Info := {
  media_type : string;
  title : string;
  synopsis : string;
  genres : string;
  date_info : string;
  broadcast : string;
  image_url : string;
  characters : list (string * string) }.

Record UserData := {
  query : option string;
  info : option Info;
  images : option bool;
  want_translate : option bool;
  season : option (option Z) }.

Definition set_query (ud : UserData) (q : string) : UserData :=
  {| query := Some q; info := info ud; images := images ud;
     want_translate := want_translate ud; season := season ud |}.
Definition set_info (ud : UserData) (i : Info) : UserData :=
  {| query := query ud; info := Some i; images := images ud;
     want_translate := want_translate ud; season := season ud |}.
Definition set_images (ud : UserData) (b : bool) : UserData :=
  {| query := query ud; info := info ud; images := Some b;
     want_translate := want_translate ud; season := season ud |}.
Definition set_translate (ud : UserData) (b : bool) : UserData :=
  {| query := query ud; info := info ud; images := images ud;
     want_translate := Some b; season := season ud |}.
Definition set_season (ud : UserData) (s : option Z) : UserData :=
  {| query := query ud; info := info ud; images := images ud;
     want_translate := want_translate ud; season := Some s |}.

Inductive Out : Type :=
| Reply (body : string)
| Photo (url caption : string).

Record State := { user_data : UserData; outbox : list Out }.

Definition with_user_data (st : State) (ud : UserData) : State :=
  {| user_data := ud; outbox := outbox st |}.
Definition say (st : State) (o : Out) : State :=
  {| user_data := user_data st; outbox := outbox st ++ [o] |}.
Definition reply_text (st : State) (body : string) : State := say st (Reply body).

Definition Ret : Type := result ConvState.

Definition KeyError (k : string) : exn := Exn "KeyError" k.

(** *** Best match *)

(** The loop of [select_best_match]: the first item whose lowered title
    equals or contains the lowered query. *)
Fixpoint first_hit (query_lower : string) (results : list Item) : option Item :=
  match results with
  | [] => None
  | item :: rest =>
      let title := lower (default "" (item_title item)) in
      if String.eqb title query_lower || contains query_lower title
      then Some item
      else first_hit query_lower rest
  end.

Definition select_best_match (results : list Item) (query : string) : option Item :=
  let query_lower := lower query in
  match first_hit query_lower results with
  | Some item => Some item
  | None => head results
  end.

Definition nl : string := String "010" EmptyString.

Section Service.
Context {W : Type} `{Services W}.

Definition search_media (w : W) (query media_type : string) : W * list Item :=
  let url := "https://api.jikan.moe/v4/" +:+ media_type +:+ "?q=" +:+ query
               +:+ "&limit=10" in
  let '(w, response) := requests_get w url in
  if negb (status_code response =? 200) then (w, [])
  else (w, default [] (data response)).

(** [select_best_match(results, query) if results else None] *)
Definition best_of (results : list Item) (query : string) : option Item :=
  match results with
  | [] => None
  | _ => select_best_match results query
  end.

Definition fetch_characters (w : W) (kind : string) (mal_id : option Z)
  : W * list (string * string) :=
  match mal_id with
  | Some id =>
      if id =? 0 then (w, [])
      else
        let char_url := "https://api.jikan.moe/v4/" +:+ lower kind +:+ "/"
                          +:+ str id +:+ "/characters" in
        let '(w, char_resp) := requests_get_characters w char_url in
        if char_resp.(status_code) =? 200
        then (w, (fun item => (default "N/A" (char_name item),
                               default "" (char_image_url item)))
                   <$> default [] (data char_resp))
        else (w, [])
  | None => (w, [])
  end.

Definition describe (w : W) (kind : string) (best : Item) : W * Info :=
  let genres := match item_genres best with
                | [] => "N/A"
                | genres_list => join ", " genres_list
                end in
  let date_info :=
    if String.eqb kind "Anime"
    then default "Not available" (item_aired_to best)
    else default "Not available" (item_published_to best) in
  let broadcast :=
    if String.eqb kind "Anime"
    then default "Not available" (item_broadcast best)
    else "Not available" in
  let '(w, chars) := fetch_characters w kind (item_mal_id best) in
  (w, {| media_type := kind;
         title := default "N/A" (item_title best);
         synopsis := default "N/A" (item_synopsis best);
         genres := genres;
         date_info := date_info;
         broadcast := broadcast;
         image_url := default "" (item_image_url best);
         characters := chars |}).

Definition get_media_info (w : W) (query : string) : W * option Info :=
  let '(w, anime_results) := search_media w query "anime" in
  match best_of anime_results query with
  | Some best => let '(w, i) := describe w "Anime" best in (w, Some i)
  | None =>
      let '(w, manga_results) := search_media w query "manga" in
      match best_of manga_results query with
      | Some best => let '(w, i) := describe w "Manga" best in (w, Some i)
      | None => (w, None)
      end
  end.

(** *** Conversation handlers *)

Definition media_query_handler (text : string) (w : W) (st : State)
  : W * State * Ret :=
  let st := with_user_data st (set_query (user_data st) text) in
  match get_media_info w text with
  | (w, None) => (w, reply_text st "Sorry, no media found for your query.", Ok END)
  | (w, Some i) =>
      let st := with_user_data st (set_info (user_data st) i) in
      (w, reply_text st ("I found: " +:+ title i
                           +:+ ". Is that the anime/manga you meant? (Yes/No)"),
       Ok CONFIRM)
  end.

Definition is_yes (text : string) : bool :=
  existsb (String.eqb (lower text)) ["yes"; "y"].

Definition confirm_handler (text : string) (st : State) : State * Ret :=
  if is_yes text then (reply_text st "Do you want images? (Yes/No)", Ok ASK_IMAGES)
  else (reply_text st "Okay, please refine your query.", Ok END).

Definition ask_images_handler (text : string) (st : State) : State * Ret :=
  let st := with_user_data st (set_images (user_data st) (is_yes text)) in
  (reply_text st "Do you want to translate the synopsis to English? (Yes/No)",
   Ok ASK_TRANSLATE).

Definition ask_translate_handler (text : string) (st : State) : State * Ret :=
  let st := with_user_data st (set_translate (user_data st) (is_yes text)) in
  (reply_text st "If the series has multiple seasons, enter the season number (or type 'skip' to use default).",
   Ok ASK_SEASON).

(** The season read from the reply: [None] for "skip" and for a reply
    that [int] rejects. *)
Definition parse_season (text : string) : option Z :=
  let answer := lower text in
  if String.eqb answer "skip" then None else int_of_str answer.

(** [if season:] holds for an int other than zero. *)
Definition season_given (season : option Z) : option Z :=
  match season with
  | Some n => if n =? 0 then None else Some n
  | None => None
  end.

Definition build_reply (i : Info) : string :=
  let reply_text :=
    "Type: " +:+ media_type i +:+ nl
      +:+ "Title: " +:+ title i +:+ nl +:+ nl
      +:+ "Synopsis: " +:+ synopsis i +:+ nl +:+ nl
      +:+ "Genres: " +:+ genres i +:+ nl +:+ nl
      +:+ "Date Info: " +:+ date_info i +:+ nl
      +:+ "Broadcast: " +:+ broadcast i +:+ nl +:+ nl
      +:+ "Characters:" +:+ nl in
  let reply_text :=
    foldl (fun acc char => acc +:+ "- " +:+ char.1 +:+ nl) reply_text (characters i) in
  if (MAX_CAPTION_LENGTH <? String.length reply_text)%nat
  then slice_to (MAX_CAPTION_LENGTH - 3) reply_text +:+ "..."
  else reply_text.

Fixpoint send_character_photos (w : W) (st : State) (chars : list (string * string))
  : W * State :=
  match chars with
  | [] => (w, st)
  | char :: rest =>
      match char.2 with
      | EmptyString => send_character_photos w st rest
      | url =>
          match reply_photo w url char.1 with
          | (w, Ok _) => send_character_photos w (say st (Photo url char.1)) rest
          | (w, Raise _) => send_character_photos w st rest
          end
      end
  end.

(** The end of [ask_season_handler]: the reply built from [info],
    translated and sent with or without images. *)
Definition present (info : Info) (w : W) (st : State) : W * State :=
  let reply := build_reply info in
  let '(w, reply) :=
    if default false (want_translate (user_data st))
    then match translate w (synopsis info) with
         | (w, Ok translated) => (w, replace reply (synopsis info) translated)
         | (w, Raise _) => (w, reply)
         end
    else (w, reply) in
  if default false (images (user_data st))
  then
    let '(w, st) :=
      match reply_photo w (image_url info) reply with
      | (w, Ok _) => (w, say st (Photo (image_url info) reply))
      | (w, Raise _) => (w, reply_text st reply)
      end in
    send_character_photos w st (characters info)
  else (w, reply_text st reply).

Definition ask_season_handler (text : string) (w : W) (st : State)
  : W * State * Ret :=
  let season := parse_season text in
  let st := with_user_data st (set_season (user_data st) season) in
  match query (user_data st) with
  | None => (w, st, Raise (KeyError "query"))
  | Some query =>
      match info (user_data st) with
      | None => (w, st, Raise (KeyError "info"))
      | Some info =>
          let '(w, st, info) :=
            match season_given season with
            | Some n =>
                let new_query := query +:+ " season " +:+ str n in
                match get_media_info w new_query with
                | (w, Some new_info) =>
                    (w, with_user_data st (set_info (user_data st) new_info),
                     new_info)
                | (w, None) => (w, st, info)
                end
            | None => (w, st, info)
            end in
          let '(w, st) := present info w st in
          (w, st, Ok END)
      end
  end.
(** *** The application *)

(** An update is a text message that is no command, a message that
    starts with the bot command [name] (whose whole text is [text]), or
    a message without text. *)
Inductive Update : Type :=
| UText (text : string)
| UCommand (name text : string)
| UOther.

(** [update.message.text] when [filters.TEXT] holds: a command is text
    as well. *)
Definition message_text (u : Update) : option string :=
  match u with
  | UText text | UCommand _ text =>
      match text with
      | EmptyString => None
      | _ => Some text
      end
  | UOther => None
  end.

Definition cancel_handler (st : State) : State * Ret :=
  (reply_text st "Operation cancelled.", Ok END).

Definition start_command (st : State) : State :=
  reply_text st
    "Hello! Send me the name of an anime or manga, and I'll fetch its details for you.".

(** A returned state is entered; an exception keeps the current one. *)
Definition update_state (c : ConvState) (r : Ret) : ConvState :=
  match r with
  | Ok c' => c'
  | Raise _ => c
  end.

(** [conv_handler]: outside a conversation the entry point takes a text
    that is no command; inside, the handler of the state takes any text,
    and /cancel is the fallback for what the state leaves. *)
Definition conv_handler (u : Update) (c : ConvState) (w : W) (st : State)
  : W * State * ConvState :=
  let after (w : W) (sr : State * Ret) := (w, sr.1, update_state c sr.2) in
  match c with
  | END =>
      match u with
      | UText text =>
          match message_text u with
          | Some _ =>
              let '(w, st, r) := media_query_handler text w st in
              (w, st, update_state c r)
          | None => (w, st, c)
          end
      | _ => (w, st, c)
      end
  | _ =>
      match message_text u with
      | Some text =>
          match c with
          | CONFIRM => after w (confirm_handler text st)
          | ASK_IMAGES => after w (ask_images_handler text st)
          | ASK_TRANSLATE => after w (ask_translate_handler text st)
          | _ =>
              let '(w, st, r) := ask_season_handler text w st in
              (w, st, update_state c r)
          end
      | None =>
          match u with
          | UCommand name _ =>
              if String.eqb name "cancel" then after w (cancel_handler st)
              else (w, st, c)
          | _ => (w, st, c)
          end
      end
  end.

(** The application: /start is registered before the conversation and
    takes its update. *)
Definition process_update (u : Update) (c : ConvState) (w : W) (st : State)
  : W * State * ConvState :=
  match u with
  | UCommand name _ =>
      if String.eqb name "start" then (w, start_command st, c)
      else conv_handler u c w st
  | _ => conv_handler u c w st
  end.

Fixpoint process_updates (us : list Update) (c : ConvState) (w : W) (st : State)
  : W * State * ConvState :=
  match us with
  | [] => (w, st, c)
  | u :: rest =>
      let '(w, st, c) := process_update u c w st in
      process_updates rest c w st
  end.

End Service.

End Lookup.

(** ** src/cgi.py: the header parser *)

Module Cgi.
Import Py.

(** [_headerre.split(line)] for the pattern [;\s*]: a semicolon ends a
    piece and the white space after it is dropped.  [skipping] holds
    while that white space is being passed, [cur] is the piece read. *)
Fixpoint header_split (skipping : bool) (cur s : string) : list string :=
  match s with
  | EmptyString => [cur]
  | String c rest =>
      if skipping && is_space c then header_split true cur rest
      else if Ascii.eqb c ";" then cur :: header_split true "" rest
      else header_split false (cur +:+ String c EmptyString) rest
  end.

(** [item.split('=', 1)] when ['=' in item]: the text before the first
    equals sign and the text after it. *)
Fixpoint split_equals (item : string) : option (string * string) :=
  match item with
  | EmptyString => None
  | String c rest =>
      if Ascii.eqb c "="
      then Some (EmptyString, rest)
      else (fun kv => (String c kv.1, kv.2)) <$> split_equals rest
  end.

Definition is_quote (c : ascii) : bool := Ascii.eqb c "034".

Fixpoint lstrip_quotes (s : string) : string :=
  match s with
  | EmptyString => EmptyString
  | String c rest => if is_quote c then lstrip_quotes rest else s
  end.

Fixpoint rstrip_quotes (s : string) : string :=
  match s with
  | EmptyString => EmptyString
  | String c rest =>
      match rstrip_quotes rest with
      | EmptyString => if is_quote c then EmptyString else String c EmptyString
      | r => String c r
      end
  end.

(** [s.strip] of the double quote character (code 34). *)
Definition strip_quotes (s : string) : string := rstrip_quotes (lstrip_quotes s).

(** One turn of the loop over [parts[1:]]. *)
Definition add_param (pdict : gmap string string) (item : string) : gmap string string :=
  match split_equals item with
  | Some (k, v) => <[strip k := strip_quotes (strip v)]> pdict
  | None => pdict
  end.

Definition parse_header (line : string) : string * gmap string string :=
  let parts := header_split false "" line in
  let key := strip (default "" (head parts)) in
  (key, foldl add_param ∅ (tail parts)).

End Cgi.

(** ** Sample worlds and inputs *)

Module Samples.
Import Py.

(** A platform that numbers the messages it accepts from [w] on and
    refuses every photo. *)
Definition accept (w : Z) : Z * result Relay.Sent :=
  (w + 1, Ok {| Relay.sent_chat_id := -1001234567890; Relay.sent_message_id := w |}).

Definition picky_bot : Relay.BotApi Z := {|
  Relay.send_document w _ _ _ := accept w;
  Relay.send_photo w _ _ _ := (w, Raise (Exn "BadRequest" "Photo_invalid_dimensions"));
  Relay.send_video w _ _ _ := accept w;
  Relay.send_message w _ _ := (w + 1, Ok tt) |}.

Definition report : Relay.FDict :=
  Relay.new_fdict
    (Relay.ADocument {| Relay.doc_file_id := "doc-1";
                        Relay.doc_file_name := Some "report.pdf";
                        Relay.doc_file_size := Some 1536 |})
    Relay.TDocument (Some "report.pdf") "".

Definition snapshot : Relay.FDict :=
  Relay.new_fdict
    (Relay.APhoto {| Relay.ph_file_id := "photo-1"; Relay.ph_file_size := None |})
    Relay.TPhoto (Some "photo.jpg") "".

Definition clip : Relay.FDict :=
  Relay.new_fdict
    (Relay.AVideo {| Relay.vid_file_id := "video-1"; Relay.vid_file_name := None;
                     Relay.vid_file_size := Some 5000000;
                     Relay.vid_duration := 3725 |})
    Relay.TVideo (Some "video.mp4") "3725".

Definition group_chat : Relay.Chat :=
  {| Relay.chat_id := -1001234567890; Relay.chat_type := "supergroup";
     Relay.chat_title := Some "Archive"; Relay.chat_username := None |}.

Definition private_chat : Relay.Chat :=
  {| Relay.chat_id := 42; Relay.chat_type := "private";
     Relay.chat_title := None; Relay.chat_username := Some "alice" |}.

Definition text_message (body : string) : Relay.Message :=
  {| Relay.text := Some body; Relay.document := None; Relay.photo := [];
     Relay.video := None; Relay.message_id := 7 |}.

(** A logged-in user who has sent three files. *)
Definition collected : Relay.State :=
  {| Relay.disk := ∅;
     Relay.chat_logs := ∅;
     Relay.user_data := {| Relay.authenticated := Some true;
                           Relay.files := Some [report; snapshot; clip];
                           Relay.current_index := None;
                           Relay.target := None |};
     Relay.outbox := [] |}.

(** A fresh user and a disk holding the password "s3cret". *)
Definition fresh : Relay.State :=
  {| Relay.disk := Relay.save_password ∅ "s3cret";
     Relay.chat_logs := ∅;
     Relay.user_data := {| Relay.authenticated := None; Relay.files := None;
                           Relay.current_index := None; Relay.target := None |};
     Relay.outbox := [] |}.

Definition titled (t : string) : Lookup.Item :=
  {| Lookup.item_title := Some t; Lookup.item_synopsis := None;
     Lookup.item_genres := []; Lookup.item_aired_to := None;
     Lookup.item_published_to := None; Lookup.item_broadcast := None;
     Lookup.item_image_url := None; Lookup.item_mal_id := None |}.

(** A search service that knows nothing and a translator that is down. *)
Definition offline : Lookup.Services unit := {|
  Lookup.requests_get w _ := (w, {| Lookup.status_code := 503; Lookup.data := None |});
  Lookup.requests_get_characters w _ :=
    (w, {| Lookup.status_code := 503; Lookup.data := None |});
  Lookup.translate w _ := (w, Raise (Exn "RequestError" "unreachable"));
  Lookup.reply_photo w _ _ := (w, Ok tt) |}.

Definition found : Lookup.Info :=
  {| Lookup.media_type := "Anime"; Lookup.title := "Naruto";
     Lookup.synopsis := "A young ninja."; Lookup.genres := "Action";
     Lookup.date_info := "2007"; Lookup.broadcast := "Thursdays";
     Lookup.image_url := ""; Lookup.characters := [] |}.

Definition asked : Lookup.State :=
  {| Lookup.user_data := {| Lookup.query := Some "naruto";
                            Lookup.info := Some found;
                            Lookup.images := Some false;
                            Lookup.want_translate := Some false;
                            Lookup.season := None |};
     Lookup.outbox := [] |}.

(** A search service with two anime and no manga, no character lists, a
    translator that answers and a platform that takes every photo. *)
Definition library : Lookup.Services unit := {|
  Lookup.requests_get w url :=
    (w, if contains "/anime?" url
        then {| Lookup.status_code := 200;
                Lookup.data := Some [titled "Boruto"; titled "Naruto"] |}
        else {| Lookup.status_code := 200; Lookup.data := Some [] |});
  Lookup.requests_get_characters w _ :=
    (w, {| Lookup.status_code := 404; Lookup.data := None |});
  Lookup.translate w _ := (w, Ok "A young ninja.");
  Lookup.reply_photo w _ _ := (w, Ok tt) |}.

Definition nobody : Lookup.State :=
  {| Lookup.user_data := {| Lookup.query := None; Lookup.info := None;
                            Lookup.images := None; Lookup.want_translate := None;
                            Lookup.season := None |};
     Lookup.outbox := [] |}.
End Samples.

(** * Properties *)

Module RelayFacts.
Import Py Relay.

(** ** Decimal rendering *)

Lemma uint_digits (d : uint) : all_chars is_digit (NilEmpty.string_of_uint d) = true.
Proof. induction d; simpl; auto. Qed.

Lemma str_nonneg_digits (n : Z) : 0 <= n -> all_chars is_digit (str n) = true.
Proof.
  intros Hn. unfold str. destruct n as [|p|p]; [reflexivity| |lia].
  simpl. unfold NilZero.string_of_uint.
  destruct (Pos.to_uint p) eqn:E; try (rewrite <- E; apply uint_digits).
  reflexivity.
Qed.

Lemma str_nonempty (n : Z) : str n <> EmptyString.
Proof.
  unfold str. destruct n as [|p|p]; simpl; try discriminate.
  unfold NilZero.string_of_uint.
  pose proof (Unsigned.to_uint_nonnil p) as Hn.
  destruct (Pos.to_uint p); simpl; congruence.
Qed.

Lemma all_chars_app (p : ascii -> bool) (a b : string) :
  all_chars p (a +:+ b) = all_chars p a && all_chars p b.
Proof.
  induction a as [|x a IH]; [reflexivity|].
  change (p x && all_chars p (a +:+ b) = p x && all_chars p a && all_chars p b).
  by rewrite IH, andb_assoc.
Qed.

Lemma fmt_02d_digits (n : Z) : 0 <= n -> all_chars is_digit (fmt_02d n) = true.
Proof.
  intros Hn. unfold fmt_02d. case_match.
  - rewrite all_chars_app. by rewrite str_nonneg_digits.
  - by apply str_nonneg_digits.
Qed.

Lemma fmt_02d_length (n : Z) : (2 <= String.length (fmt_02d n))%nat.
Proof.
  unfold fmt_02d. case_match eqn:E.
  - pose proof (str_nonempty n). destruct (str n); [done|]. simpl. lia.
  - apply Nat.ltb_ge in E. done.
Qed.

(** Below one hundred, [fmt_02d] prints the tens and the units. *)
Lemma fmt_02d_small_nat (k : nat) :
  (k < 100)%nat -> fmt_02d (Z.of_nat k) = two_digits (Z.of_nat k).
Proof.
  intros Hk.
  assert (Hall : forallb (fun k => String.eqb (fmt_02d (Z.of_nat k))
                                     (two_digits (Z.of_nat k))) (seq 0 100) = true)
    by (vm_compute; reflexivity).
  rewrite forallb_forall in Hall.
  apply String.eqb_eq, Hall, in_seq. lia.
Qed.

Lemma fmt_02d_small (n : Z) : 0 <= n < 100 -> fmt_02d n = two_digits n.
Proof.
  intros Hn. rewrite <- (Z2Nat.id n) by lia. apply fmt_02d_small_nat. lia.
Qed.

Lemma two_digits_length (n : Z) : String.length (two_digits n) = 2%nat.
Proof. reflexivity. Qed.

Lemma two_digits_digits (n : Z) : 0 <= n < 100 -> all_chars is_digit (two_digits n) = true.
Proof. intros Hn. rewrite <- fmt_02d_small by done. apply fmt_02d_digits. lia. Qed.

(** ** Rounding *)

Lemma round_half_even_near (n d : Z) :
  0 < d -> 2 * Z.abs (n - d * round_half_even n d) <= d.
Proof.
  intros Hd. unfold round_half_even.
  pose proof (Z.div_mod n d ltac:(lia)) as Hdm.
  pose proof (Z.mod_pos_bound n d Hd) as Hr.
  repeat case_match; lia.
Qed.

Lemma round_half_even_nonneg (n d : Z) : 0 <= n -> 0 < d -> 0 <= round_half_even n d.
Proof.
  intros Hn Hd. unfold round_half_even.
  pose proof (Z.div_pos n d Hn Hd). repeat case_match; lia.
Qed.

Lemma float_of_int_exact (b : Z) : 0 < b < 2 ^ 53 -> float_of_int b = Float b 0.
Proof.
  intros Hb. unfold float_of_int.
  assert (Z.log2 b < 53) by (apply Z.log2_lt_pow2; lia).
  case_match eqn:E; [done|]. apply Z.leb_gt in E. lia.
Qed.

Lemma float_of_int_nonneg (b : Z) : 0 < b -> 0 <= mant (float_of_int b).
Proof.
  intros Hb. unfold float_of_int. case_match; simpl; [lia|].
  apply round_half_even_nonneg; [lia|]. apply Z.pow_pos_nonneg; lia.
Qed.

Lemma hundredths_nonneg (x : float) : 0 <= mant x -> 0 <= hundredths x.
Proof.
  intros Hm. unfold hundredths. case_match eqn:E.
  - apply Z.leb_le in E. pose proof (Z.pow_nonneg 2 (expo x)). nia.
  - apply Z.leb_gt in E. apply round_half_even_nonneg; [lia|].
    apply Z.pow_pos_nonneg; lia.
Qed.

(** The hundredths printed for [b / 2 ^ k] when [b] is exactly a float. *)
Lemma hundredths_exact (b k : Z) :
  0 < k -> hundredths (Float b (- k)) = round_half_even (b * 100) (2 ^ k).
Proof.
  intros Hk. unfold hundredths. simpl.
  case_match eqn:E; [apply Z.leb_le in E; lia|]. by rewrite Z.opp_involutive.
Qed.

Lemma band_exact (b k : Z) :
  0 < b < 2 ^ 53 -> 0 < k ->
  nearest_hundredth (hundredths (Float b (- k))) b (2 ^ k).
Proof.
  intros Hb Hk. rewrite hundredths_exact by done. unfold nearest_hundredth.
  replace (100 * b) with (b * 100) by lia.
  apply round_half_even_near. apply Z.pow_pos_nonneg; lia.
Qed.

Lemma append_assoc (a c d : string) : (a +:+ c) +:+ d = a +:+ c +:+ d.
Proof.
  induction a as [|x a IH]; [reflexivity|].
  change (String x ((a +:+ c) +:+ d) = String x (a +:+ c +:+ d)). by rewrite IH.
Qed.

Lemma size_hundredths_nonneg (b k : Z) :
  0 < b -> 0 <= hundredths (Float (mant (float_of_int b)) k).
Proof. intros Hb. apply hundredths_nonneg. simpl. by apply float_of_int_nonneg. Qed.

(** C3.  [format_file_size]: a missing size gives "Unknown"; below 1024 the
    byte count followed by " B"; in the KB, MB and GB bands the quotient by
    1024, 1024^2 and 1024^3 printed as an integer part, a point and exactly
    two decimal digits, followed by the unit.  The two decimals are those
    of the nearest hundredth (exactly so while the count is below 2^53,
    where the float quotient is exact). *)
Theorem format_file_size_bands :
  format_file_size None = "Unknown" /\
  forall b : Z,
    (b < 1024 -> format_file_size (Some b) = str b +:+ " B") /\
    (1024 <= b < 1024 ^ 2 ->
     exists q, format_file_size (Some b)
                 = str (q / 100) +:+ "." +:+ two_digits (q mod 100) +:+ " KB"
               /\ 0 <= q /\ nearest_hundredth q b 1024) /\
    (1024 ^ 2 <= b < 1024 ^ 3 ->
     exists q, format_file_size (Some b)
                 = str (q / 100) +:+ "." +:+ two_digits (q mod 100) +:+ " MB"
               /\ 0 <= q /\ nearest_hundredth q b (1024 ^ 2)) /\
    (1024 ^ 3 <= b ->
     exists q, format_file_size (Some b)
                 = str (q / 100) +:+ "." +:+ two_digits (q mod 100) +:+ " GB"
               /\ 0 <= q /\ (b < 2 ^ 53 -> nearest_hundredth q b (1024 ^ 3))) /\
    (forall q, 0 <= q ->
       all_chars is_digit (str (q / 100)) = true /\
       all_chars is_digit (two_digits (q mod 100)) = true /\
       String.length (two_digits (q mod 100)) = 2%nat).
Proof.
  split; [reflexivity|]. intros b.
  split; [|split; [|split; [|split]]].
  - intros Hb. unfold format_file_size.
    by destruct (Z.ltb_spec b 1024); [|lia].
  - intros Hb. unfold format_file_size.
    destruct (Z.ltb_spec b 1024); [lia|].
    destruct (Z.ltb_spec b (1024 * 1024)); [|lia].
    unfold int_div_1024, div_1024.
    eexists. split; [|split].
    + unfold fmt_2f, decimal_2. rewrite !append_assoc. reflexivity.
    + apply size_hundredths_nonneg. lia.
    + rewrite float_of_int_exact by lia. simpl.
      change (0 - 10) with (- 10). change 1024 with (2 ^ 10).
      apply band_exact; lia.
  - intros Hb. unfold format_file_size.
    destruct (Z.ltb_spec b 1024); [lia|].
    destruct (Z.ltb_spec b (1024 * 1024)); [lia|].
    destruct (Z.ltb_spec b (1024 * 1024 * 1024)); [|lia].
    unfold int_div_1024, div_1024.
    eexists. split; [|split].
    + unfold fmt_2f, decimal_2. rewrite !append_assoc. reflexivity.
    + apply size_hundredths_nonneg. lia.
    + rewrite float_of_int_exact by lia. simpl.
      change (0 - 10 - 10) with (- 20). change (1024 ^ 2) with (2 ^ 20).
      apply band_exact; lia.
  - intros Hb. unfold format_file_size.
    destruct (Z.ltb_spec b 1024); [lia|].
    destruct (Z.ltb_spec b (1024 * 1024)); [lia|].
    destruct (Z.ltb_spec b (1024 * 1024 * 1024)); [lia|].
    unfold int_div_1024, div_1024.
    eexists. split; [|split].
    + unfold fmt_2f, decimal_2. rewrite !append_assoc. reflexivity.
    + apply size_hundredths_nonneg. lia.
    + intros Hlt. rewrite float_of_int_exact by lia. simpl.
      change (0 - 10 - 10 - 10) with (- 30). change (1024 ^ 3) with (2 ^ 30).
      apply band_exact; lia.
  - intros q Hq. split; [|split].
    + apply str_nonneg_digits. apply Z.div_pos; lia.
    + apply two_digits_digits. apply Z.mod_pos_bound. lia.
    + reflexivity.
Qed.

Lemma format_file_size_bands_witness :
  format_file_size (Some 1023) = "1023 B"
  /\ (exists q, format_file_size (Some 1152) = "1.12 KB" /\ nearest_hundredth q 1152 1024)
  /\ (exists q, format_file_size (Some 5000000) = "4.77 MB"
                /\ nearest_hundredth q 5000000 (1024 ^ 2))
  /\ (exists q, format_file_size (Some 3221225472) = "3.00 GB"
                /\ nearest_hundredth q 3221225472 (1024 ^ 3)).
Proof.
  destruct format_file_size_bands as [_ Hbands].
  split; [|split; [|split]].
  - destruct (Hbands 1023) as (Hb & _). rewrite Hb by lia. reflexivity.
  - destruct (Hbands 1152) as (_ & Hkb & _).
    destruct (Hkb ltac:(lia)) as (q & _ & _ & Hq). exists q. split; [reflexivity|done].
  - destruct (Hbands 5000000) as (_ & _ & Hmb & _).
    destruct (Hmb ltac:(lia)) as (q & _ & _ & Hq). exists q. split; [reflexivity|done].
  - destruct (Hbands 3221225472) as (_ & _ & _ & Hgb & _).
    destruct (Hgb ltac:(lia)) as (q & _ & _ & Hq). exists q.
    split; [reflexivity|apply Hq; lia].
Defined.

Lemma count_char_app (c : ascii) (a b : string) :
  count_char c (a +:+ b) = (count_char c a + count_char c b)%nat.
Proof.
  induction a as [|x a IH]; [reflexivity|].
  change (((if Ascii.eqb x c then 1 else 0) + count_char c (a +:+ b))%nat
          = ((if Ascii.eqb x c then 1 else 0) + count_char c a + count_char c b)%nat).
  rewrite IH. lia.
Qed.

Lemma count_colon_digits (s : string) :
  all_chars is_digit s = true -> count_char ":" s = 0%nat.
Proof.
  induction s as [|x s IH]; [reflexivity|].
  intros [Hx Hs]%andb_prop. cbn [count_char]. rewrite (IH Hs).
  destruct (Ascii.eqb_spec x ":") as [->|]; [discriminate Hx|reflexivity].
Qed.

(** C4.  [format_duration] on a non-negative number of seconds: below 3600
    the result is MM:SS with no hour field; from 3600 on it is H:MM:SS with
    a positive hour of at least two digits; minutes and seconds are always
    exactly two digits; the result has a single colon if and only if the
    seconds are below 3600. *)
Theorem format_duration_fields (s : Z) :
  0 <= s ->
  let h := s / 3600 in
  let m := (s mod 3600) / 60 in
  let sec := s mod 60 in
  let out := format_duration (VInt s) in
  (s < 3600 -> out = two_digits m +:+ ":" +:+ two_digits sec) /\
  (3600 <= s ->
     out = fmt_02d h +:+ ":" +:+ two_digits m +:+ ":" +:+ two_digits sec
     /\ 0 < h
     /\ all_chars is_digit (fmt_02d h) = true
     /\ (2 <= String.length (fmt_02d h))%nat) /\
  (all_chars is_digit (two_digits m) = true
   /\ all_chars is_digit (two_digits sec) = true
   /\ String.length (two_digits m) = 2%nat
   /\ String.length (two_digits sec) = 2%nat) /\
  (count_char ":" out = 1%nat <-> s < 3600).
Proof.
  intros Hs.
  assert (Hm : 0 <= s mod 3600 / 60 < 60) by (Z.div_mod_to_equations; lia).
  assert (Hsec : 0 <= s mod 60 < 60) by (apply Z.mod_pos_bound; lia).
  assert (Hh : 0 <= s / 3600) by (apply Z.div_pos; lia).
  intros h m sec out. fold h in Hh. fold m in Hm. fold sec in Hsec.
  assert (Hdm : all_chars is_digit (two_digits m) = true)
    by (apply two_digits_digits; lia).
  assert (Hds : all_chars is_digit (two_digits sec) = true)
    by (apply two_digits_digits; lia).
  assert (Hlow : s < 3600 -> out = two_digits m +:+ ":" +:+ two_digits sec).
  { intros Hlt. subst out. unfold format_duration, py_int.
    fold h m sec. rewrite (fmt_02d_small m), (fmt_02d_small sec) by lia.
    assert (h = 0) as -> by (apply Z.div_small; lia). reflexivity. }
  assert (Hhigh : 3600 <= s ->
            out = fmt_02d h +:+ ":" +:+ two_digits m +:+ ":" +:+ two_digits sec
            /\ 0 < h).
  { intros Hge.
    assert (0 < h) by (apply Z.div_str_pos; lia).
    split; [|done]. subst out. unfold format_duration, py_int.
    fold h m sec. rewrite (fmt_02d_small m), (fmt_02d_small sec) by lia.
    destruct (Z.ltb_spec 0 h); [reflexivity|lia]. }
  split; [exact Hlow|]. split; [|split].
  - intros Hge. destruct (Hhigh Hge) as [-> ?].
    repeat split; [done|by apply fmt_02d_digits|apply fmt_02d_length].
  - done.
  - destruct (Z.lt_ge_cases s 3600) as [Hlt|Hge].
    + rewrite (Hlow Hlt), !count_char_app.
      rewrite (count_colon_digits (two_digits m)),
        (count_colon_digits (two_digits sec)) by done.
      split; [done|reflexivity].
    + destruct (Hhigh Hge) as [-> ?].
      rewrite !count_char_app.
      rewrite (count_colon_digits (two_digits m)),
        (count_colon_digits (two_digits sec)),
        (count_colon_digits (fmt_02d h)) by (done || by apply fmt_02d_digits).
      split; [discriminate|lia].
Qed.

Lemma format_duration_fields_witness :
  0 <= 3725 /\ format_duration (VInt 3725) = "01:02:05".
Proof.
  split; [lia|].
  destruct (format_duration_fields 3725 ltac:(lia)) as (_ & Hhigh & _).
  destruct (Hhigh ltac:(lia)) as [-> _]. reflexivity.
Defined.

(** ** Prefixes and slices *)

Lemma startswith_app (p rest : string) : startswith (p +:+ rest) p = true.
Proof.
  induction p as [|a p IH]; [by destruct rest|].
  change (startswith (String a (p +:+ rest)) (String a p) = true).
  cbn [startswith]. by destruct (ascii_dec a a).
Qed.

Lemma startswith_inv (s p : string) :
  startswith s p = true -> exists rest, s = p +:+ rest.
Proof.
  revert s. induction p as [|a p IH]; intros s Hs.
  - by exists s.
  - destruct s as [|b s]; [discriminate|]. cbn [startswith] in Hs.
    destruct (ascii_dec a b) as [->|]; [|discriminate].
    destruct (IH s Hs) as [rest ->]. by exists rest.
Qed.

Lemma slice_from_app (p rest : string) : slice_from (String.length p) (p +:+ rest) = rest.
Proof. induction p as [|a p IH]; [by destruct rest|exact IH]. Qed.

Lemma strip_reserved (rest : string) : slice_from 4 ("-100" +:+ rest) = rest.
Proof. exact (slice_from_app "-100" rest). Qed.

Lemma not_startswith (s p : string) :
  (forall rest, s <> p +:+ rest) -> startswith s p = false.
Proof.
  intros Hno. destruct (startswith s p) eqn:E; [|done].
  destruct (startswith_inv _ _ E) as [rest ->]. by destruct (Hno rest).
Qed.

(** C5.  The deep link of the table of contents and of the batch send: an
    identifier that reads "-100" followed by [rest] is put into the link as
    [rest]; an identifier that does not start with "-100" is put verbatim. *)
Theorem deep_link_prefix_stripped :
  (forall (group_id rest : string) (m : Entry),
      group_id = "-100" +:+ rest ->
      toc_line (toc_link_id group_id) m
      = "[Msg " +:+ str (entry_message_id m) +:+ ": " +:+ snippet m +:+ "]("
          +:+ "https://t.me/c/" +:+ rest +:+ "/" +:+ str (entry_message_id m) +:+ ")") /\
  (forall (group_id : string) (m : Entry),
      (forall rest, group_id <> "-100" +:+ rest) ->
      toc_line (toc_link_id group_id) m
      = "[Msg " +:+ str (entry_message_id m) +:+ ": " +:+ snippet m +:+ "]("
          +:+ "https://t.me/c/" +:+ group_id +:+ "/" +:+ str (entry_message_id m) +:+ ")") /\
  (forall (sent : Sent) (rest : string),
      str (sent_chat_id sent) = "-100" +:+ rest ->
      hyperlink_url sent
      = "https://t.me/c/" +:+ rest +:+ "/" +:+ str (sent_message_id sent)) /\
  (forall sent : Sent,
      (forall rest, str (sent_chat_id sent) <> "-100" +:+ rest) ->
      hyperlink_url sent
      = "https://t.me/c/" +:+ str (sent_chat_id sent) +:+ "/"
          +:+ str (sent_message_id sent)).
Proof.
  split; [|split; [|split]].
  - intros group_id rest m ->. unfold toc_line, toc_link_id.
    rewrite startswith_app. by rewrite strip_reserved.
  - intros group_id m Hno. unfold toc_line, toc_link_id.
    by rewrite not_startswith.
  - intros sent rest Hid. unfold hyperlink_url, link_cid. rewrite Hid.
    rewrite startswith_app. by rewrite strip_reserved.
  - intros sent Hno. unfold hyperlink_url, link_cid. by rewrite not_startswith.
Qed.

Lemma deep_link_prefix_stripped_witness :
  hyperlink_url {| sent_chat_id := -1001234567890; sent_message_id := 55 |}
  = "https://t.me/c/1234567890/55"
  /\ hyperlink_url {| sent_chat_id := 42; sent_message_id := 55 |}
     = "https://t.me/c/42/55"
  /\ toc_line (toc_link_id "-100777") {| entry_message_id := 9; snippet := "hi" |}
     = "[Msg 9: hi](https://t.me/c/777/9)"
  /\ toc_line (toc_link_id "@news") {| entry_message_id := 9; snippet := "hi" |}
     = "[Msg 9: hi](https://t.me/c/@news/9)".
Proof.
  destruct deep_link_prefix_stripped as (Htoc & Htoc' & Hbs & Hbs').
  split; [|split; [|split]].
  - rewrite (Hbs _ "1234567890") by reflexivity. reflexivity.
  - rewrite Hbs' by (intros rest; vm_compute; discriminate). reflexivity.
  - rewrite (Htoc "-100777" "777") by reflexivity. reflexivity.
  - rewrite Htoc' by (intros rest; discriminate). reflexivity.
Defined.

(** ** Persistence *)

(** C8.  Reading the stores never fails: [load_groups] and [load_password]
    return a value on every disk.  A missing, unreadable or corrupt group
    file gives the empty mapping; a missing, unreadable or corrupt password
    file, one without a "password" key, or one that holds no mapping at
    all, gives "admin". *)
Theorem load_falls_back (disk : gmap string file) :
  (disk !! GROUPS_FILE = None \/ disk !! GROUPS_FILE = Some Unreadable
   \/ disk !! GROUPS_FILE = Some (Text None) ->
   load_groups disk = VDict []) /\
  (disk !! PASSWORD_FILE = None \/ disk !! PASSWORD_FILE = Some Unreadable
   \/ disk !! PASSWORD_FILE = Some (Text None) ->
   load_password disk = VStr "admin") /\
  (forall kv, disk !! PASSWORD_FILE = Some (Text (Some (VDict kv))) ->
              assoc "password" kv = None ->
              load_password disk = VStr "admin") /\
  (forall v, disk !! PASSWORD_FILE = Some (Text (Some v)) ->
             (forall kv, v <> VDict kv) ->
             load_password disk = VStr "admin").
Proof.
  unfold load_groups, load_password, json_load. split; [|split; [|split]].
  - by intros [-> | [-> | ->]].
  - by intros [-> | [-> | ->]].
  - intros kv -> Hkv. simpl. by rewrite Hkv.
  - intros v -> Hv. destruct v; try done. by destruct (Hv kv).
Qed.

Lemma load_falls_back_witness :
  load_groups ∅ = VDict []
  /\ load_password (<[PASSWORD_FILE := Text None]> ∅) = VStr "admin"
  /\ load_password (<[PASSWORD_FILE := Text (Some (VDict [("pass", VStr "x")]))]> ∅)
     = VStr "admin"
  /\ load_password (<[PASSWORD_FILE := Text (Some (VList []))]> ∅) = VStr "admin".
Proof.
  split; [|split; [|split]].
  - apply (load_falls_back ∅). left. reflexivity.
  - apply (load_falls_back (<[PASSWORD_FILE := Text None]> ∅)).
    right. right. reflexivity.
  - destruct (load_falls_back
                (<[PASSWORD_FILE := Text (Some (VDict [("pass", VStr "x")]))]> ∅))
      as (_ & _ & Hkey & _).
    by apply (Hkey [("pass", VStr "x")]).
  - destruct (load_falls_back (<[PASSWORD_FILE := Text (Some (VList []))]> ∅))
      as (_ & _ & _ & Hshape).
    by apply (Hshape (VList [])).
Defined.

(** ** Login *)

Lemma str_eq_true (a : string) (v : value) : str_eq a v = true <-> v = VStr a.
Proof.
  destruct v; simpl; try (split; [discriminate|congruence]).
  rewrite String.eqb_eq. split; congruence.
Qed.

(** C7.  A login whose password argument differs from the stored one
    leaves the disk (hence the credential file) and the user data as they
    were, so that a user who was not authenticated is still not; and the
    authenticated flag changes only when the argument equals the stored
    password. *)
Theorem login_wrong_password (args : list string) (st : State) :
  (forall a0 rest,
      args = a0 :: rest ->
      load_password (disk st) <> VStr a0 ->
      disk (login args st) = disk st
      /\ user_data (login args st) = user_data st
      /\ (authenticated (user_data st) = None ->
          authenticated (user_data (login args st)) = None
          /\ is_authenticated (user_data (login args st)) = false)) /\
  (authenticated (user_data (login args st)) <> authenticated (user_data st) ->
   exists a0 rest, args = a0 :: rest /\ load_password (disk st) = VStr a0).
Proof.
  split.
  - intros a0 rest -> Hne. unfold login.
    destruct (str_eq a0 (load_password (disk st))) eqn:E.
    { apply str_eq_true in E. done. }
    simpl. split; [done|]. split; [done|].
    intros Hnone. unfold is_authenticated. by rewrite Hnone.
  - unfold login. destruct args as [|a0 rest]; [done|].
    destruct (str_eq a0 (load_password (disk st))) eqn:E; [|done].
    intros _. apply str_eq_true in E. eauto.
Qed.

Lemma login_wrong_password_witness :
  disk (login ["admin"] Samples.fresh) = disk Samples.fresh
  /\ user_data (login ["admin"] Samples.fresh) = user_data Samples.fresh
  /\ (authenticated (user_data Samples.fresh) = None ->
      authenticated (user_data (login ["admin"] Samples.fresh)) = None
      /\ is_authenticated (user_data (login ["admin"] Samples.fresh)) = false).
Proof.
  apply (proj1 (login_wrong_password ["admin"] Samples.fresh) "admin" []).
  - reflexivity.
  - vm_compute. discriminate.
Defined.

(** ** The bounded log *)

Section LastN.
Context {A : Type}.
Implicit Types l k : list A.

Lemma last_n_length n l : length (last_n n l) = (length l `min` n)%nat.
Proof. unfold last_n. rewrite length_drop. lia. Qed.

Lemma last_n_suffix n l : last_n n l `suffix_of` l.
Proof. apply suffix_drop. Qed.

Lemma last_n_short n l : (length l <= n)%nat -> last_n n l = l.
Proof. intros Hl. unfold last_n. by replace (length l - n)%nat with 0%nat by lia. Qed.

(** Trimming early does not change what is kept in the end. *)
Lemma last_n_app n l k : last_n n (last_n n l ++ k) = last_n n (l ++ k).
Proof.
  destruct (decide (length l <= n)%nat) as [Hle|Hgt].
  { by rewrite (last_n_short n l). }
  unfold last_n at 1 3. rewrite !length_app, last_n_length.
  replace (length l `min` n + length k - n)%nat with (length k) by lia.
  replace (length l + length k - n)%nat
    with ((length l - n) + length k)%nat by lia.
  rewrite <- drop_drop. f_equal. unfold last_n.
  rewrite drop_app_le by lia. done.
Qed.

Lemma last_n_full_snoc n l x :
  length l = n -> (0 < n)%nat -> last_n n (l ++ [x]) = drop 1 l ++ [x].
Proof.
  intros Hl Hn. unfold last_n. rewrite length_app. simpl.
  replace (length l + 1 - n)%nat with 1%nat by lia.
  rewrite drop_app_le by lia. done.
Qed.
End LastN.

(** One logged update appends its entry and keeps the last hundred. *)
Lemma log_messages_step (chat : Chat) (msg : option Message) (st : State) (cid : string) :
  log_of (log_messages chat msg st) cid
  = match arrival cid (chat, msg) with
    | Some e => last_n 100 (log_of st cid ++ [e])
    | None => log_of st cid
    end.
Proof.
  unfold log_messages, arrival, log_of. simpl.
  destruct (loggable chat); simpl; [|done].
  destruct msg as [msg|]; simpl.
  - destruct (String.eqb_spec (str (chat_id chat)) cid) as [->|Hne].
    + rewrite lookup_insert_eq. simpl.
      case_match eqn:E; [done|].
      apply Nat.ltb_ge in E. by rewrite last_n_short.
    + by rewrite lookup_insert_ne.
  - by destruct (String.eqb _ _).
Qed.

Lemma log_all_from (events : list (Chat * option Message)) (st : State) (cid : string) :
  (length (log_of st cid) <= 100)%nat ->
  log_of (log_all events st) cid = last_n 100 (log_of st cid ++ arrivals cid events).
Proof.
  revert st. induction events as [|[chat msg] events IH]; intros st Hlen.
  - simpl. rewrite app_nil_r. by rewrite last_n_short.
  - change (log_all ((chat, msg) :: events) st)
      with (log_all events (log_messages chat msg st)).
    rewrite IH, log_messages_step; unfold arrivals; simpl.
    + destruct (arrival cid (chat, msg)) as [e|]; [|done].
      by rewrite last_n_app, <- app_assoc.
    + rewrite log_messages_step.
      destruct (arrival cid (chat, msg)); [|done]. rewrite last_n_length. lia.
Qed.

(** C9.  Starting from empty logs, after any sequence of updates the log
    of a chat is the last 100 of the entries logged for that chat, in
    arrival order: at most 100 entries, a suffix of everything that
    arrived; and logging one more entry into a log of 100 drops the oldest
    entry and appends the new one. *)
Theorem chat_log_keeps_last_hundred
    (events : list (Chat * option Message)) (st : State) (cid : string) :
  chat_logs st = ∅ ->
  let log := log_of (log_all events st) cid in
  log = last_n 100 (arrivals cid events)
  /\ (length log <= 100)%nat
  /\ length log = (length (arrivals cid events) `min` 100)%nat
  /\ log `suffix_of` arrivals cid events
  /\ (forall chat msg e,
        arrival cid (chat, Some msg) = Some e ->
        length log = 100%nat ->
        log_of (log_messages chat (Some msg) (log_all events st)) cid
        = drop 1 log ++ [e]).
Proof.
  intros Hempty log.
  assert (Hlog : log = last_n 100 (arrivals cid events)).
  { subst log. rewrite log_all_from; unfold log_of; rewrite Hempty, lookup_empty;
      simpl; [done|lia]. }
  assert (Hlen : length log = (length (arrivals cid events) `min` 100)%nat)
    by (rewrite Hlog; apply last_n_length).
  split; [done|]. split; [lia|]. split; [done|]. split.
  - rewrite Hlog. apply last_n_suffix.
  - intros chat msg e He Hfull. rewrite log_messages_step, He.
    fold log. apply last_n_full_snoc; [done|lia].
Qed.

Lemma chat_log_keeps_last_hundred_witness :
  let events := [(Samples.group_chat, Some (Samples.text_message "hello"));
                 (Samples.private_chat, Some (Samples.text_message "psst"));
                 (Samples.group_chat, None);
                 (Samples.group_chat, Some (Samples.text_message ""))] in
  chat_logs Samples.fresh = ∅
  /\ log_of (log_all events Samples.fresh) "-1001234567890"
     = [{| entry_message_id := 7; snippet := "hello" |};
        {| entry_message_id := 7; snippet := "Non-text" |}].
Proof.
  intros events. split; [reflexivity|].
  destruct (chat_log_keeps_last_hundred events Samples.fresh "-1001234567890" eq_refl)
    as (Hlog & _).
  rewrite Hlog. reflexivity.
Defined.

(** ** Labels *)

Lemma choose_prefix_cases (cur : FDict) (text : string) :
  (text = "" -> choose_prefix cur text = file_name cur)
  /\ (text = "-" -> choose_prefix cur text = file_name cur)
  /\ (text <> "" -> text <> "-" -> choose_prefix cur text = Some text).
Proof.
  unfold choose_prefix. split; [by intros ->|]. split; [by intros ->|].
  intros H1 H2. simpl.
  destruct (String.eqb_spec text "-"); [done|].
  destruct (String.eqb_spec text ""); done.
Qed.

Lemma bs_receive_prefix_files (msg : Message) (st : State) (fs : list FDict)
    (idx : nat) (cur : FDict) :
  is_authenticated (user_data st) = true ->
  files (user_data st) = Some fs ->
  default 0%nat (current_index (user_data st)) = idx ->
  fs !! idx = Some cur ->
  let st' := (bs_receive_prefix msg st).1 in
  files (user_data st')
  = Some (<[idx := set_prefix cur (choose_prefix cur (stripped_text msg))]> fs)
  /\ current_index (user_data st') = Some (S idx)
  /\ disk st' = disk st
  /\ authenticated (user_data st') = authenticated (user_data st).
Proof.
  intros Hauth Hfiles Hidx Hcur. unfold bs_receive_prefix, require_login.
  rewrite Hauth, Hfiles, Hidx. simpl. rewrite Hcur.
  repeat case_match; simpl; done.
Qed.

(** C10.  In the labeling phase a reply whose stripped text is empty and the
    reply "-" both give the file its original name as label; any other
    stripped text becomes the label as it is. *)
Theorem empty_reply_means_default (msg : Message) (st : State) (fs : list FDict)
    (idx : nat) (cur : FDict) :
  is_authenticated (user_data st) = true ->
  files (user_data st) = Some fs ->
  default 0%nat (current_index (user_data st)) = idx ->
  fs !! idx = Some cur ->
  exists label,
    files (user_data (bs_receive_prefix msg st).1)
    = Some (<[idx := set_prefix cur label]> fs)
    /\ (stripped_text msg = "" -> label = file_name cur)
    /\ (stripped_text msg = "-" -> label = file_name cur)
    /\ (stripped_text msg <> "" -> stripped_text msg <> "-" ->
        label = Some (stripped_text msg)).
Proof.
  intros Hauth Hfiles Hidx Hcur.
  exists (choose_prefix cur (stripped_text msg)). split.
  - by apply bs_receive_prefix_files.
  - apply choose_prefix_cases.
Qed.

Lemma empty_reply_means_default_witness :
  let fs := [Samples.report; Samples.snapshot; Samples.clip] in
  let msg := Samples.text_message "   " in
  is_authenticated (user_data Samples.collected) = true
  /\ stripped_text msg = ""
  /\ exists label,
       files (user_data (bs_receive_prefix msg Samples.collected).1)
       = Some (<[0%nat := set_prefix Samples.report label]> fs)
       /\ label = Some "report.pdf".
Proof.
  intros fs msg. split; [reflexivity|]. split; [reflexivity|].
  destruct (empty_reply_means_default msg Samples.collected fs 0 Samples.report)
    as (label & Hfiles & Hempty & _); try reflexivity.
  exists label. split; [exact Hfiles|]. by rewrite Hempty.
Defined.

(** ** The labeling phase *)

Lemma bs_receive_prefix_eq (msg : Message) (st : State) (fs : list FDict)
    (idx : nat) (cur : FDict) :
  is_authenticated (user_data st) = true ->
  files (user_data st) = Some fs ->
  default 0%nat (current_index (user_data st)) = idx ->
  fs !! idx = Some cur ->
  let fs' := <[idx := set_prefix cur (choose_prefix cur (stripped_text msg))]> fs in
  let st1 := with_user_data st
               (set_current_index (set_files (user_data st) fs') (S idx)) in
  bs_receive_prefix msg st
  = if (S idx <? length fs)%nat
    then match fs' !! S idx with
         | Some next_file =>
             (reply_text st1 (prefix_prompt (S (S idx)) next_file),
              Ok (Some BATCH_GET_PREFIX))
         | None => (st1, Raise IndexError)
         end
    else match dict_items (load_groups (disk st)) with
         | Ok groups =>
             (say st1 (ReplyKeyboard
                         "Batch Send: Select target group to receive all messages:"
                         (target_buttons groups)), Ok (Some BS_TARGET))
         | Raise e => (st1, Raise e)
         end.
Proof.
  intros Hauth Hfiles Hidx Hcur. cbv zeta. unfold bs_receive_prefix, require_login.
  rewrite Hauth, Hfiles, Hidx. simpl. rewrite Hcur, length_insert.
  by rewrite Nat.add_1_r.
Qed.

Section Labelled.
Implicit Types (fs : list FDict) (replies : list Message).

Lemma labelled_length fs replies k :
  length replies = k -> (k <= length fs)%nat ->
  length (labelled (take k fs) replies) = k.
Proof.
  intros Hr Hk. unfold labelled. rewrite length_zip_with, length_take. lia.
Qed.

Lemma labelled_snoc fs replies m cur k :
  length replies = k -> fs !! k = Some cur ->
  labelled (take (S k) fs) (replies ++ [m])
  = labelled (take k fs) replies
      ++ [set_prefix cur (choose_prefix cur (stripped_text m))].
Proof.
  intros Hr Hcur. unfold labelled. rewrite (take_S_r _ _ _ Hcur).
  rewrite zip_with_app; [done|].
  rewrite length_take. apply lookup_lt_Some in Hcur. lia.
Qed.

Lemma pending_lookup fs replies k j :
  length replies = k -> (k <= length fs)%nat ->
  (labelled (take k fs) replies ++ drop k fs) !! (k + j)%nat = fs !! (k + j)%nat.
Proof.
  intros Hr Hk. rewrite lookup_app_r by (rewrite labelled_length; lia).
  rewrite labelled_length by done. rewrite lookup_drop. f_equal. lia.
Qed.

Lemma pending_head fs replies k :
  length replies = k -> (k <= length fs)%nat ->
  (labelled (take k fs) replies ++ drop k fs) !! k = fs !! k.
Proof.
  intros Hr Hk. pose proof (pending_lookup fs replies k 0 Hr Hk) as Hp.
  by rewrite Nat.add_0_r in Hp.
Qed.

Lemma label_next fs replies m cur k :
  length replies = k -> fs !! k = Some cur ->
  <[k := set_prefix cur (choose_prefix cur (stripped_text m))]>
    (labelled (take k fs) replies ++ drop k fs)
  = labelled (take (S k) fs) (replies ++ [m]) ++ drop (S k) fs.
Proof.
  intros Hr Hcur. pose proof (lookup_lt_Some _ _ _ Hcur) as Hlt.
  rewrite (labelled_snoc _ _ _ _ _ Hr Hcur), <- app_assoc.
  rewrite <- (Nat.add_0_r k) at 1.
  rewrite <- (labelled_length fs replies k Hr ltac:(lia)) at 1.
  rewrite insert_app_r. f_equal.
  by rewrite (drop_S _ _ _ Hcur).
Qed.

Lemma label_prompts_lookup fs j f :
  fs !! j = Some f -> label_prompts fs !! j = Some (Reply (prefix_prompt (S j) f)).
Proof. intros Hf. unfold label_prompts. by rewrite list_lookup_imap, Hf. Qed.

Lemma label_prompts_length fs : length (label_prompts fs) = length fs.
Proof. unfold label_prompts. apply length_imap. Qed.
End Labelled.

Section Conversation.
Context {W : Type} `{BotApi W}.

Lemma run_app (us1 us2 : list Update) (c : ConvState) (w : W) (st : State) :
  run (us1 ++ us2) c w st
  = run us2 (run us1 c w st).2 (run us1 c w st).1.1 (run us1 c w st).1.2.
Proof.
  revert c w st. induction us1 as [|u us1 IH]; intros c w st; [done|].
  simpl. destruct (bs_conv u c w st) as [[w1 st1] c1]. apply IH.
Qed.

(** After /done and [k] replies, [k] files carry their label and the
    next prompt is out; after the last reply the destinations are
    offered. *)
Lemma labeling_progress (chat : Chat) (w : W) (st : State) (fs : list FDict)
    (replies : list Message) :
  is_authenticated (user_data st) = true ->
  files (user_data st) = Some fs ->
  fs <> [] ->
  Forall (fun m => truthy (text m) = true) replies ->
  (length replies <= length fs)%nat ->
  let k := length replies in
  let last := bool_decide (k = length fs) in
  exists st',
    run (UCommand "done" [] chat :: ((fun m => UMessage m chat) <$> replies))
        BATCH_COLLECT w st
    = (w, st', if last then state_after_labels (disk st) else BATCH_GET_PREFIX)
    /\ disk st' = disk st
    /\ is_authenticated (user_data st') = true
    /\ current_index (user_data st') = Some k
    /\ files (user_data st') = Some (labelled (take k fs) replies ++ drop k fs)
    /\ outbox st' = outbox st ++ take (S k) (label_prompts fs)
                      ++ (if last then target_offer (disk st) else []).
Proof.
  intros Hauth Hfiles Hne. induction replies as [|m replies IH] using rev_ind;
    intros Hall Hlen k last.
  - destruct fs as [|f0 fs0]; [done|]. subst k last. simpl.
    unfold bs_conv. simpl. unfold batch_done, require_login.
    rewrite Hauth, Hfiles. simpl.
    eexists. split; [reflexivity|]. simpl. repeat split; done.
  - rewrite length_app in Hlen. simpl in Hlen.
    apply Forall_app in Hall as [Hall Hm]. rewrite Forall_singleton in Hm.
    destruct IH as (st1 & Hrun & Hdisk & Hauth1 & Hidx & Hfs & Hout);
      [done|lia|].
    rewrite bool_decide_eq_false_2 in Hrun, Hout by lia.
    rewrite app_nil_r in Hout.
    set (k0 := length replies) in *.
    assert (Hk : k = S k0) by (subst k k0; rewrite length_app; simpl; lia).
    destruct (lookup_lt_is_Some_2 fs k0 ltac:(lia)) as [cur Hcur].
    assert (Hcur1 : (labelled (take k0 fs) replies ++ drop k0 fs) !! k0 = Some cur).
    { rewrite pending_head by (done || lia). done. }
    pose proof (bs_receive_prefix_eq m st1 _ k0 cur Hauth1 Hfs
                  ltac:(by rewrite Hidx) Hcur1) as Hstep.
    cbv zeta in Hstep.
    rewrite (label_next fs replies m cur k0 eq_refl Hcur) in Hstep.
    rewrite length_app, labelled_length, length_drop in Hstep by (done || lia).
    replace (k0 + (length fs - k0))%nat with (length fs) in Hstep by lia.
    assert (Hrun' :
              run (UCommand "done" [] chat
                     :: ((fun m => UMessage m chat) <$> (replies ++ [m])))
                  BATCH_COLLECT w st
              = (w, (bs_receive_prefix m st1).1,
                 update_state BATCH_GET_PREFIX (bs_receive_prefix m st1).2)).
    { rewrite fmap_app, app_comm_cons, run_app, Hrun. simpl.
      unfold bs_conv. simpl. by rewrite Hm. }
    rewrite Hrun', Hstep, Hk. subst last. rewrite Hk. clear Hrun' Hstep.
    destruct (decide (S k0 = length fs)) as [Hlast|Hmore].
    + rewrite bool_decide_eq_true_2 by lia.
      replace (S k0 <? length fs)%nat with false
        by (symmetry; apply Nat.ltb_ge; lia).
      rewrite Hdisk. unfold state_after_labels, target_offer.
      rewrite (take_ge (label_prompts fs))
        by (rewrite label_prompts_length; lia).
      rewrite (take_ge (label_prompts fs)) in Hout
        by (rewrite label_prompts_length; lia).
      destruct (dict_items (load_groups (disk st))) as [groups|e]; simpl;
        (eexists; split; [reflexivity|]); simpl;
        rewrite ?Hout, ?app_nil_r; repeat split; try done.
      by rewrite <- app_assoc.
    + rewrite bool_decide_eq_false_2 by lia.
      replace (S k0 <? length fs)%nat with true
        by (symmetry; apply Nat.ltb_lt; lia).
      destruct (lookup_lt_is_Some_2 fs (S k0) ltac:(lia)) as [next Hnext].
      assert (Hnext1 : (labelled (take (S k0) fs) (replies ++ [m])
                          ++ drop (S k0) fs) !! S k0 = Some next).
      { rewrite pending_head by (rewrite ?length_app; simpl; lia). done. }
      rewrite Hnext1. simpl.
      eexists. split; [reflexivity|]. simpl.
      rewrite Hout, app_nil_r. repeat split; try done.
      rewrite (take_S_r _ (S k0) _ (label_prompts_lookup _ _ _ Hnext)).
      by rewrite <- !app_assoc.
Qed.
End Conversation.

Section Dispatching.
Context {W : Type} `{BotApi W}.

(** In the labeling state nothing but a text reply moves the index. *)
Lemma index_moves_on_reply_only (u : Update) (w : W) (st : State) :
  current_index (user_data (bs_conv u BATCH_GET_PREFIX w st).1.2)
  <> current_index (user_data st) ->
  exists msg chat, u = UMessage msg chat /\ truthy (text msg) = true.
Proof.
  unfold bs_conv. destruct u as [name args chat|msg chat|data]; simpl.
  - destruct (String.eqb name "batchsend").
    + unfold batchsend_command, require_login.
      by destruct (is_authenticated (user_data st)).
    + by destruct (String.eqb name "cancel").
  - destruct (truthy (text msg)) eqn:E; [eauto|done].
  - done.
Qed.

Lemma dispatch_one_line (w : W) (target : string) (i : nat) (f : FDict) :
  (dispatch_one w target i f).2 = success_line i
  \/ exists e, (dispatch_one w target i f).2 = error_line i e.
Proof.
  unfold dispatch_one. destruct (send_file w target f) as [w1 [sent|e]].
  - destruct (send_message w1 target (hyperlink_msg f sent)) as [w2 [[]|e]];
      simpl; eauto.
  - simpl. eauto.
Qed.

Lemma dispatch_all_cons (w : W) (target : string) (i : nat) (f : FDict)
    (rest : list FDict) :
  (dispatch_all w target i (f :: rest)).2
  = (dispatch_one w target i f).2
      :: (dispatch_all (dispatch_one w target i f).1 target (S i) rest).2.
Proof.
  cbn [dispatch_all]. destruct (dispatch_one w target i f) as [w1 line].
  cbn [fst snd]. by destruct (dispatch_all w1 target (S i) rest).
Qed.

(** One line per file, numbered from [i] on, whatever fails. *)
Lemma dispatch_all_lines (fs : list FDict) (w : W) (target : string) (i : nat) :
  length (dispatch_all w target i fs).2 = length fs
  /\ forall j, (j < length fs)%nat ->
       (dispatch_all w target i fs).2 !! j = Some (success_line (i + j))
       \/ exists e, (dispatch_all w target i fs).2 !! j = Some (error_line (i + j) e).
Proof.
  revert w i. induction fs as [|f rest IH]; intros w i.
  - split; [done|]. simpl. lia.
  - rewrite dispatch_all_cons.
    destruct (IH (dispatch_one w target i f).1 (S i)) as [Hlen Hlines].
    split; [simpl; by rewrite Hlen|].
    intros [|j] Hj; simpl.
    + rewrite Nat.add_0_r.
      destruct (dispatch_one_line w target i f) as [->|[e ->]]; eauto.
    + replace (i + S j)%nat with (S i + j)%nat by lia.
      apply Hlines. simpl in Hj. lia.
Qed.

(** A failed delivery leaves its error line and the loop goes on from
    the world as the failure left it. *)
Lemma dispatch_continues (w w1 : W) (target : string) (i : nat) (f : FDict)
    (rest : list FDict) (e : exn) :
  send_file w target f = (w1, Raise e) ->
  (dispatch_all w target i (f :: rest)).2
  = error_line i e :: (dispatch_all w1 target (S i) rest).2.
Proof.
  intros Hsend. rewrite dispatch_all_cons. unfold dispatch_one.
  by rewrite Hsend.
Qed.

Lemma bs_select_target_eq (data target : string) (w : W) (st : State)
    (fs : list FDict) :
  is_authenticated (user_data st) = true ->
  files (user_data st) = Some fs ->
  callback_arg data "bs_target:" = Ok target ->
  exists st',
    bs_select_target data w st
    = ((dispatch_all w target 1 fs).1, (st', Ok (Some END)))
    /\ outbox st'
       = outbox st
           ++ [Reply ("Batch Send Completed:" +:+ String "010" EmptyString
                        +:+ join (String "010" EmptyString)
                              (dispatch_all w target 1 fs).2)]
    /\ Relay.target (user_data st') = Some target.
Proof.
  intros Hauth Hfiles Harg. unfold bs_select_target.
  rewrite Hauth, Harg. simpl. rewrite Hfiles. simpl.
  destruct (dispatch_all w target 1 fs) as [w' results]. simpl.
  eexists. split; [reflexivity|]. done.
Qed.

(** C2.  A batch-send session over N >= 1 collected files, for a logged-in
    user: after /done and k < N replies the conversation is still in the
    labeling state, the index is k and exactly the prompts for files
    1..k+1 are out, in collection order; in the labeling state only a text
    reply changes the index; after the N-th reply all N prompts are out,
    followed by the offer of destinations, and every file carries the label
    of its own reply; the dispatch to any chosen destination then reports
    exactly N lines, the i-th being the success line or an error line of
    file i, and a failed delivery leaves its error line while the loop
    carries on with the remaining files. *)
Theorem batch_session_prompts_and_outcomes (chat : Chat) (w : W) (st : State)
    (fs : list FDict) (replies : list Message) :
  is_authenticated (user_data st) = true ->
  files (user_data st) = Some fs ->
  (1 <= length fs)%nat ->
  Forall (fun m => truthy (text m) = true) replies ->
  length replies = length fs ->
  let labeling k :=
    run (UCommand "done" [] chat :: ((fun m => UMessage m chat) <$> take k replies))
        BATCH_COLLECT w st in
  (* one prompt at a time, in collection order *)
  (forall k, (k < length fs)%nat ->
     exists st_k,
       labeling k = (w, st_k, BATCH_GET_PREFIX)
       /\ current_index (user_data st_k) = Some k
       /\ outbox st_k = outbox st ++ take (S k) (label_prompts fs))
  /\ length (label_prompts fs) = length fs
  /\ (forall i f, fs !! i = Some f ->
        label_prompts fs !! i = Some (Reply (prefix_prompt (S i) f)))
  (* the index moves on a reply only *)
  /\ (forall u w0 st0,
        current_index (user_data (bs_conv u BATCH_GET_PREFIX w0 st0).1.2)
        <> current_index (user_data st0) ->
        exists msg chat0, u = UMessage msg chat0 /\ truthy (text msg) = true)
  (* after the last reply: all prompts, then the offer *)
  /\ exists st_n,
       labeling (length fs) = (w, st_n, state_after_labels (disk st))
       /\ outbox st_n = outbox st ++ label_prompts fs ++ target_offer (disk st)
       /\ files (user_data st_n) = Some (labelled fs replies)
       /\ length (labelled fs replies) = length fs
       (* dispatch: one outcome line per file *)
       /\ forall data target w0,
            callback_arg data "bs_target:" = Ok target ->
            let results := (dispatch_all w0 target 1 (labelled fs replies)).2 in
            (exists w' st_end,
                bs_select_target data w0 st_n = (w', (st_end, Ok (Some END)))
                /\ outbox st_end
                   = outbox st_n
                       ++ [Reply ("Batch Send Completed:" +:+ String "010" EmptyString
                                    +:+ join (String "010" EmptyString) results)])
            /\ length results = length fs
            /\ (forall i, (i < length fs)%nat ->
                  results !! i = Some (success_line (S i))
                  \/ exists e, results !! i = Some (error_line (S i) e))
            /\ (forall w1 w2 i f rest e,
                  send_file w1 target f = (w2, Raise e) ->
                  (dispatch_all w1 target i (f :: rest)).2
                  = error_line i e :: (dispatch_all w2 target (S i) rest).2).
Proof.
  intros Hauth Hfiles Hlen Hall Hreplies labeling.
  assert (Hne : fs <> []) by (destruct fs; [simpl in Hlen; lia|done]).
  split; [|split; [|split; [|split]]].
  - intros k Hk.
    destruct (labeling_progress chat w st fs (take k replies) Hauth Hfiles Hne)
      as (st_k & Hrun & _ & _ & Hidx & _ & Hout).
    { by apply Forall_take. }
    { rewrite length_take. lia. }
    rewrite length_take, Hreplies in Hrun, Hidx, Hout.
    replace (k `min` length fs)%nat with k in * by lia.
    rewrite bool_decide_eq_false_2 in Hrun, Hout by lia.
    rewrite app_nil_r in Hout. eauto.
  - apply label_prompts_length.
  - apply label_prompts_lookup.
  - apply index_moves_on_reply_only.
  - destruct (labeling_progress chat w st fs replies Hauth Hfiles Hne Hall)
      as (st_n & Hrun & Hdisk & Hauth_n & Hidx & Hfs & Hout); [lia|].
    rewrite Hreplies in Hrun, Hfs, Hout.
    rewrite bool_decide_eq_true_2 in Hrun, Hout by done.
    rewrite firstn_all, drop_all, app_nil_r in Hfs.
    rewrite take_ge in Hout by (rewrite label_prompts_length; lia).
    assert (Hlab : length (labelled fs replies) = length fs)
      by (unfold labelled; rewrite length_zip_with; lia).
    exists st_n. subst labeling. cbv beta.
    rewrite <- Hreplies, firstn_all, Hreplies.
    split; [done|]. split; [done|]. split; [done|]. split; [done|].
    intros data target w0 Harg results.
    destruct (bs_select_target_eq data target w0 st_n _ Hauth_n Hfs Harg)
      as (st_end & Hsel & Hout_end & _).
    destruct (dispatch_all_lines (labelled fs replies) w0 target 1)
      as [Hrlen Hrlines].
    split; [eauto|]. split; [by rewrite <- Hlab|]. split.
    + intros i Hi. apply (Hrlines i). lia.
    + intros w1 w2 i f rest e. apply dispatch_continues.
Qed.
End Dispatching.

Lemma batch_session_prompts_and_outcomes_witness :
  let replies := [Samples.text_message "Q3 report"; Samples.text_message "-";
                  Samples.text_message "  "] in
  exists st_n,
    @run Z Samples.picky_bot
      (UCommand "done" [] Samples.private_chat
         :: ((fun m => UMessage m Samples.private_chat) <$> replies))
      BATCH_COLLECT 100 Samples.collected
    = (100, st_n, BS_TARGET)
    /\ length (outbox st_n) = 4%nat
    /\ (@dispatch_all Z Samples.picky_bot 100 "-1001234567890" 1
          (labelled [Samples.report; Samples.snapshot; Samples.clip] replies)).2
       = ["File 1 sent successfully.";
          "File 2 error: Photo_invalid_dimensions";
          "File 3 sent successfully."].
Proof.
  intros replies.
  destruct (@batch_session_prompts_and_outcomes Z Samples.picky_bot
              Samples.private_chat 100 Samples.collected
              [Samples.report; Samples.snapshot; Samples.clip] replies)
    as (_ & _ & _ & _ & st_n & Hrun & Hout & _); try reflexivity.
  - simpl. lia.
  - repeat constructor.
  - exists st_n. split; [exact Hrun|]. split; [by rewrite Hout|]. reflexivity.
Defined.

End RelayFacts.

Module LookupFacts.
Import Py Lookup.

(** ** Best match *)

Lemma startswith_refl (s : string) : startswith s s = true.
Proof. induction s as [|a s IH]; [done|]. simpl. by destruct (ascii_dec a a). Qed.

Lemma contains_refl (s : string) : contains s s = true.
Proof. destruct s; simpl; [done|]. destruct (ascii_dec a a); [|done]. by rewrite startswith_refl. Qed.

(** What the loop returns: the first candidate, in list order, whose
    lowered title contains the lowered query; equality is one way of
    containing. *)
Lemma first_hit_spec (q : string) (results : list Item) :
  match first_hit q results with
  | Some item =>
      exists before after,
        results = before ++ item :: after
        /\ contains q (lower (default "" (item_title item))) = true
        /\ Forall (fun it => contains q (lower (default "" (item_title it))) = false)
                  before
  | None =>
      Forall (fun it => contains q (lower (default "" (item_title it))) = false) results
  end.
Proof.
  induction results as [|item rest IH]; simpl; [done|].
  destruct (String.eqb_spec (lower (default "" (item_title item))) q) as [Heq|Hne]; simpl.
  - exists [], rest. by rewrite Heq, contains_refl.
  - destruct (contains q (lower (default "" (item_title item)))) eqn:Hc.
    + exists [], rest. done.
    + destruct (first_hit q rest) as [hit|].
      * destruct IH as (before & after & -> & Hhit & Hbefore).
        exists (item :: before), after. split; [done|]. split; [done|].
        by constructor.
      * by constructor.
Qed.

(** C1.  The claim: for a non-empty candidate list, a title equal to the
    query (ignoring case) wins over a title that merely contains it,
    whatever the order of the candidates.  The code runs one loop that
    returns the first candidate whose title equals or contains the query:
    with "Boruto", "Naruto Shippuden" and "Naruto" listed in this order
    and the query "naruto", it returns "Naruto Shippuden", which is neither
    the exact match "Naruto" nor the first result; with the list reversed
    it returns "Naruto". *)
Theorem select_best_match_takes_first_containing :
  let boruto := Samples.titled "Boruto" in
  let shippuden := Samples.titled "Naruto Shippuden" in
  let naruto := Samples.titled "Naruto" in
  select_best_match [boruto; shippuden; naruto] "naruto" = Some shippuden
  /\ lower (default "" (item_title naruto)) = lower "naruto"
  /\ lower (default "" (item_title shippuden)) <> lower "naruto"
  /\ select_best_match [naruto; shippuden; boruto] "naruto" = Some naruto.
Proof. repeat split; try reflexivity. vm_compute. discriminate. Qed.

(** ** The season step *)

Section Season.
Context {W : Type} `{Services W}.

Lemma send_character_photos_user_data (chars : list (string * string))
    (w : W) (st : State) :
  user_data (send_character_photos w st chars).2 = user_data st.
Proof.
  revert w st. induction chars as [|[name url] chars IH]; intros w st; [done|].
  simpl. destruct url as [|a url]; [apply IH|].
  destruct (reply_photo w (String a url) name) as [w1 [[]|e]]; by rewrite IH.
Qed.

Lemma present_user_data (i : Info) (w : W) (st : State) :
  user_data (present i w st).2 = user_data st.
Proof.
  unfold present.
  destruct (default false (want_translate (user_data st))).
  - destruct (translate w (synopsis i)) as [w1 [translated|e]];
      (destruct (default false (images (user_data st))); [|done]);
      match goal with
      | |- context [reply_photo ?a ?b ?c] =>
          destruct (reply_photo a b c) as [w2 [[]|e2]]
      end; by rewrite send_character_photos_user_data.
  - destruct (default false (images (user_data st))); [|done].
    match goal with
    | |- context [reply_photo ?a ?b ?c] =>
        destruct (reply_photo a b c) as [w2 [[]|e2]]
    end; by rewrite send_character_photos_user_data.
Qed.

Lemma season_given_none (text : string) :
  lower text = "skip" \/ int_of_str (lower text) = None
  \/ int_of_str (lower text) = Some 0 ->
  season_given (parse_season text) = None.
Proof.
  unfold parse_season, season_given.
  destruct (String.eqb_spec (lower text) "skip") as [->|Hne]; [done|].
  by intros [?|[->| ->]].
Qed.

(** C6.  The season step of the lookup conversation ends the conversation,
    and it keeps the stored result, presenting the originally selected
    match, when the reply is "skip", is not a number (or is zero), or when
    the lookup refined by the season finds nothing; the stored result
    differs afterwards only if the reply is a non-zero number and the
    refined lookup succeeded, and it is then the refined result. *)
Theorem season_skip_keeps_match (text : string) (w : W) (st : State)
    (q : string) (i : Info) :
  query (user_data st) = Some q ->
  info (user_data st) = Some i ->
  let answer := lower text in
  let refined n := get_media_info w (q +:+ " season " +:+ str n) in
  let st1 := with_user_data st (set_season (user_data st) (parse_season text)) in
  let out := ask_season_handler text w st in
  out.2 = Ok END
  /\ (answer = "skip" \/ int_of_str answer = None \/ int_of_str answer = Some 0 ->
      info (user_data out.1.2) = Some i
      /\ out.1 = present i w st1)
  /\ (forall n, answer <> "skip" -> int_of_str answer = Some n -> n <> 0 ->
                (refined n).2 = None ->
                info (user_data out.1.2) = Some i
                /\ out.1 = present i (refined n).1 st1)
  /\ (info (user_data out.1.2) <> Some i ->
      exists n new_info,
        answer <> "skip" /\ int_of_str answer = Some n /\ n <> 0
        /\ (refined n).2 = Some new_info
        /\ info (user_data out.1.2) = Some new_info
        /\ out.1 = present new_info (refined n).1
                     (with_user_data st1 (set_info (user_data st1) new_info))).
Proof.
  intros Hq Hi answer refined st1 out.
  assert (Hout :
    out = match season_given (parse_season text) with
          | Some n =>
              match refined n with
              | (w1, Some new_info) =>
                  (present new_info w1
                     (with_user_data st1 (set_info (user_data st1) new_info)), Ok END)
              | (w1, None) => (present i w1 st1, Ok END)
              end
          | None => (present i w st1, Ok END)
          end).
  { subst out st1. unfold ask_season_handler. simpl. rewrite Hq, Hi.
    destruct (season_given (parse_season text)) as [n|].
    - subst refined. cbv beta.
      destruct (get_media_info w (q +:+ " season " +:+ str n)) as [w1 [new|]];
        by match goal with |- context [present ?a ?b ?c] =>
             destruct (present a b c) end.
    - by destruct (present i w _). }
  assert (Hkeep : forall w1, info (user_data (present i w1 st1).2) = Some i).
  { intros w1. rewrite present_user_data. subst st1. simpl. done. }
  assert (Hnum : forall n, answer <> "skip" -> int_of_str answer = Some n -> n <> 0 ->
                           season_given (parse_season text) = Some n).
  { intros n Hskip Hn Hnz. unfold parse_season, season_given. fold answer.
    destruct (String.eqb_spec answer "skip"); [done|]. rewrite Hn.
    destruct (Z.eqb_spec n 0); done. }
  split; [|split; [|split]].
  - rewrite Hout. destruct (season_given (parse_season text)) as [n|]; [|done].
    by destruct (refined n) as [w1 [new|]].
  - intros Hcase. rewrite Hout, (season_given_none text Hcase). simpl.
    split; [apply Hkeep|by destruct (present i w st1)].
  - intros n Hskip Hn Hnz Hfail. rewrite Hout, (Hnum n Hskip Hn Hnz).
    destruct (refined n) as [w1 [new|]]; [done|]. simpl.
    split; [apply Hkeep|by destruct (present i w1 st1)].
  - intros Hchanged. rewrite Hout in Hchanged |- *.
    unfold parse_season, season_given in *. fold answer in Hchanged |- *.
    destruct (String.eqb_spec answer "skip") as [Heq|Hskip].
    { simpl in Hchanged. by rewrite Hkeep in Hchanged. }
    destruct (int_of_str answer) as [n|] eqn:Hn;
      [|simpl in Hchanged; by rewrite Hkeep in Hchanged].
    destruct (Z.eqb_spec n 0) as [Hz|Hnz];
      [simpl in Hchanged; by rewrite Hkeep in Hchanged|].
    destruct (refined n) as [w1 [new|]] eqn:Href;
      [|simpl in Hchanged; by rewrite Hkeep in Hchanged].
    exists n, new. rewrite Href. simpl.
    split; [done|]. split; [done|]. split; [done|]. split; [done|]. split.
    + by rewrite present_user_data.
    + by destruct (present new w1 _).
Qed.
End Season.

Lemma season_skip_keeps_match_witness :
  let out := @ask_season_handler unit Samples.offline "Skip" tt Samples.asked in
  query (user_data Samples.asked) = Some "naruto"
  /\ info (user_data Samples.asked) = Some Samples.found
  /\ out.2 = Ok END
  /\ info (user_data out.1.2) = Some Samples.found.
Proof.
  intros out.
  destruct (@season_skip_keeps_match unit Samples.offline "Skip" tt Samples.asked
              "naruto" Samples.found eq_refl eq_refl) as (Hend & Hskip & _).
  destruct (Hskip (or_introl eq_refl)) as [Hinfo _].
  repeat split; done.
Defined.

End LookupFacts.

(** * Further properties *)

Module RelayExtra.
Import Py Relay RelayFacts.

(** ** The password *)

Lemma load_after_save (d : gmap string file) (p : string) :
  load_password (save_password d p) = VStr p.
Proof.
  unfold load_password, save_password, json_load, json_dump.
  by rewrite lookup_insert_eq.
Qed.

(** X1. A successful /changepassword stores the new password and leaves the
    group file alone: afterwards load_password returns the new password, and
    a fresh session is authenticated by /login exactly when its argument is
    the new password. *)
Theorem password_change_round_trip (old new : string) (more : list string)
    (st : State) :
  is_authenticated (user_data st) = true ->
  load_password (disk st) = VStr old ->
  let st' := (changepassword (old :: new :: more) st).1 in
  load_password (disk st') = VStr new
  /\ disk st' !! GROUPS_FILE = disk st !! GROUPS_FILE
  /\ forall (a : string) (rest : list string) (st0 : State),
       disk st0 = disk st' ->
       authenticated (user_data st0) = None ->
       (is_authenticated (user_data (login (a :: rest) st0)) = true <-> a = new).
Proof.
  intros Hauth Hold st'.
  assert (Hdisk : disk st' = save_password (disk st) new).
  { subst st'. unfold changepassword, require_login. rewrite Hauth, Hold. simpl.
    by rewrite String.eqb_refl. }
  split; [by rewrite Hdisk, load_after_save|]. split.
  - rewrite Hdisk. unfold save_password, json_dump. by rewrite lookup_insert_ne.
  - intros a rest st0 Hd Hnone. unfold login. rewrite Hd, Hdisk, load_after_save.
    simpl. destruct (String.eqb_spec a new) as [->|Hne]; simpl.
    + done.
    + unfold is_authenticated. rewrite Hnone. simpl. split; [done|congruence].
Qed.

Lemma password_change_round_trip_witness :
  let st := with_user_data Samples.fresh
              (set_authenticated (user_data Samples.fresh) true) in
  let st' := (changepassword ["s3cret"; "hunter2"] st).1 in
  is_authenticated (user_data st) = true
  /\ load_password (disk st) = VStr "s3cret"
  /\ load_password (disk st') = VStr "hunter2".
Proof.
  intros st st'. split; [reflexivity|]. split; [reflexivity|].
  apply (password_change_round_trip "s3cret" "hunter2" [] st); reflexivity.
Defined.

(** X2. /changepassword never touches the session or the message logs and
    returns no new state; it changes the disk only for an authenticated user
    who gives at least two arguments, the first being the stored password. *)
Theorem changepassword_guarded (args : list string) (st : State) :
  user_data (changepassword args st).1 = user_data st
  /\ chat_logs (changepassword args st).1 = chat_logs st
  /\ (changepassword args st).2 = Ok None
  /\ (disk (changepassword args st).1 <> disk st ->
      is_authenticated (user_data st) = true
      /\ exists old new more,
           args = old :: new :: more /\ load_password (disk st) = VStr old).
Proof.
  unfold changepassword, require_login.
  destruct (is_authenticated (user_data st)); simpl; [|done].
  destruct args as [|old [|new more]]; simpl; try done.
  destruct (str_eq old (load_password (disk st))) eqn:E; simpl; [|done].
  repeat split. apply str_eq_true in E. eauto 6.
Qed.

Lemma changepassword_guarded_witness :
  let st := with_user_data Samples.fresh
              (set_authenticated (user_data Samples.fresh) true) in
  disk (changepassword ["s3cret"; "hunter2"] st).1 <> disk st
  /\ exists old new more,
       ["s3cret"; "hunter2"] = old :: new :: more
       /\ load_password (disk st) = VStr old.
Proof.
  intros st.
  assert (Hch : disk (changepassword ["s3cret"; "hunter2"] st).1 <> disk st).
  { intros Heq. apply (f_equal load_password) in Heq. vm_compute in Heq.
    discriminate. }
  split; [exact Hch|].
  destruct (changepassword_guarded ["s3cret"; "hunter2"] st) as (_ & _ & _ & Hg).
  exact (proj2 (Hg Hch)).
Defined.

(** ** The batch conversation as a whole *)

Section BatchConversation.
Context {W : Type} `{BotApi W}.

Lemma bs_select_target_frame (data : string) (w : W) (st : State) :
  disk (bs_select_target data w st).2.1 = disk st
  /\ chat_logs (bs_select_target data w st).2.1 = chat_logs st
  /\ authenticated (user_data (bs_select_target data w st).2.1)
     = authenticated (user_data st).
Proof.
  unfold bs_select_target, denied.
  destruct (is_authenticated (user_data st)); simpl; [|done].
  destruct (callback_arg data "bs_target:") as [target|e]; simpl; [|done].
  by destruct (dispatch_all _ _ _ _).
Qed.

Lemma bs_conv_frame (u : Update) (c : ConvState) (w : W) (st : State) :
  disk (bs_conv u c w st).1.2 = disk st
  /\ chat_logs (bs_conv u c w st).1.2 = chat_logs st
  /\ authenticated (user_data (bs_conv u c w st).1.2) = authenticated (user_data st).
Proof.
  pose proof (bs_select_target_frame) as Hsel.
  unfold bs_conv.
  destruct (is_command u "batchsend").
  { unfold batchsend_command, require_login, denied. by case_match. }
  destruct c, u; simpl; try done;
    try (destruct (is_command _ "done"); simpl);
    try (destruct (is_command _ "cancel"); simpl);
    try (destruct (truthy _); simpl);
    try (destruct (startswith _ _); simpl); try done;
    unfold bs_collect_file, batch_done, bs_receive_prefix, require_login, denied;
    try (by repeat case_match).
  specialize (Hsel data w st).
  by destruct (bs_select_target data w st) as [w1 [st1 r]].
Qed.

(** X4. Whatever updates the batch conversation processes, it never writes the
    two JSON files, never touches the message logs and never changes the
    authenticated flag. *)
Theorem batch_conversation_frame (us : list Update) (c : ConvState) (w : W)
    (st : State) :
  disk (run us c w st).1.2 = disk st
  /\ chat_logs (run us c w st).1.2 = chat_logs st
  /\ authenticated (user_data (run us c w st).1.2) = authenticated (user_data st).
Proof.
  revert c w st. induction us as [|u us IH]; intros c w st; [done|].
  simpl. pose proof (bs_conv_frame u c w st) as (Hd & Hl & Ha).
  destruct (bs_conv u c w st) as [[w1 st1] c1]. simpl in *.
  destruct (IH c1 w1 st1) as (Hd' & Hl' & Ha'). by rewrite Hd', Hl', Ha'.
Qed.


Lemma run_cons (u : Update) (us : list Update) (c : ConvState) (w : W) (st : State) :
  run (u :: us) c w st
  = run us (bs_conv u c w st).2 (bs_conv u c w st).1.1 (bs_conv u c w st).1.2.
Proof. simpl. by destruct (bs_conv u c w st) as [[w1 st1] c1]. Qed.

Lemma bs_conv_collect (m : Message) (chat : Chat) (w : W) (st : State) :
  bs_conv (UMessage m chat) BATCH_COLLECT w st
  = (w, (bs_collect_file m st).1, update_state BATCH_COLLECT (bs_collect_file m st).2).
Proof. reflexivity. Qed.

Lemma bs_conv_batchsend (args : list string) (chat : Chat) (c : ConvState) (w : W)
    (st : State) :
  is_authenticated (user_data st) = true ->
  bs_conv (UCommand "batchsend" args chat) c w st
  = (w, reply_text (with_user_data st (set_files (user_data st) []))
          "Batch Send: Send files one by one. When finished, type /done.",
     BATCH_COLLECT).
Proof.
  intros Hauth. unfold bs_conv. simpl.
  unfold batchsend_command, require_login. by rewrite Hauth.
Qed.

(** Attachments gathered from state BATCH_COLLECT on. *)
Lemma collecting (chat : Chat) (msgs : list Message) (w : W) (st : State)
    (fs : list FDict) :
  is_authenticated (user_data st) = true ->
  files (user_data st) = Some fs ->
  exists st',
    run ((fun m => UMessage m chat) <$> msgs) BATCH_COLLECT w st
    = (w, st', BATCH_COLLECT)
    /\ files (user_data st') = Some (fs ++ omap classify msgs)
    /\ current_index (user_data st') = current_index (user_data st)
    /\ is_authenticated (user_data st') = true
    /\ length (outbox st') = (length (outbox st) + length msgs)%nat.
Proof.
  revert st fs. induction msgs as [|m msgs IH]; intros st fs Hauth Hfs.
  - exists st. rewrite app_nil_r. repeat split; try done; simpl; lia.
  - rewrite fmap_cons, run_cons, bs_conv_collect.
    unfold bs_collect_file, require_login. rewrite Hauth, Hfs. simpl.
    destruct (classify m) as [f|] eqn:Hm; simpl.
    + lazymatch goal with
      | |- exists _, run _ _ _ ?s = _ /\ _ =>
          destruct (IH s (fs ++ [f])) as (st' & Hrun & Hfiles & Hidx & Hauth' & Hout);
            [done|done|]
      end.
      exists st'. rewrite Hrun. rewrite <- app_assoc in Hfiles. simpl in *.
      repeat split; try done. rewrite Hout, length_app. simpl. lia.
    + lazymatch goal with
      | |- exists _, run _ _ _ ?s = _ /\ _ =>
          destruct (IH s fs) as (st' & Hrun & Hfiles & Hidx & Hauth' & Hout);
            [done|done|]
      end.
      exists st'. rewrite Hrun. simpl in *.
      repeat split; try done. rewrite Hout, length_app. simpl. lia.
Qed.

(** X5. For a logged-in user, /batchsend followed by any messages leaves the
    conversation collecting, with the file list holding exactly the
    supported attachments of those messages in order (whatever an earlier
    session left), each without a label, the index untouched and one reply
    per update. *)
Theorem collection_gathers_attachments (chat : Chat) (args : list string)
    (msgs : list Message) (c : ConvState) (w : W) (st : State) :
  is_authenticated (user_data st) = true ->
  exists st',
    run (UCommand "batchsend" args chat :: ((fun m => UMessage m chat) <$> msgs))
        c w st
    = (w, st', BATCH_COLLECT)
    /\ files (user_data st') = Some (omap classify msgs)
    /\ Forall (fun f => prefix f = None) (omap classify msgs)
    /\ current_index (user_data st') = current_index (user_data st)
    /\ length (outbox st') = (length (outbox st) + 1 + length msgs)%nat.
Proof.
  intros Hauth. rewrite run_cons, bs_conv_batchsend by done. simpl.
  lazymatch goal with
  | |- exists _, run _ _ _ ?s = _ /\ _ =>
      destruct (collecting chat msgs w s [])
        as (st' & Hrun & Hfiles & Hidx & _ & Hout); [done|done|]
  end.
  exists st'. rewrite Hrun. split; [done|]. split; [done|]. split; [|split].
  - apply Forall_forall. intros f [m [_ Hm]]%list_elem_of_omap.
    unfold classify in Hm. repeat case_match; by simplify_eq.
  - done.
  - rewrite Hout. simpl. rewrite length_app. simpl. lia.
Qed.

(** X6. A session in which no supported attachment was sent ends at /done with
    the message that no files were received; the labeling phase is not
    entered and the index is not set. *)
Theorem session_without_files_ends (chat : Chat) (args args' : list string)
    (msgs : list Message) (c : ConvState) (w : W) (st : State) :
  is_authenticated (user_data st) = true ->
  Forall (fun m => classify m = None) msgs ->
  exists st',
    run (UCommand "batchsend" args chat
           :: ((fun m => UMessage m chat) <$> msgs) ++ [UCommand "done" args' chat])
        c w st
    = (w, st', END)
    /\ last (outbox st') = Some (Reply "No files received. Batch send cancelled.")
    /\ files (user_data st') = Some []
    /\ current_index (user_data st') = current_index (user_data st).
Proof.
  intros Hauth Hnone.
  assert (Hempty : omap classify msgs = []).
  { clear -Hnone. induction Hnone as [|m msgs Hm _ IH]; [done|]. simpl.
    by rewrite Hm. }
  rewrite run_cons, bs_conv_batchsend by done. cbn [fst snd]. rewrite run_app.
  lazymatch goal with
  | |- context [run _ BATCH_COLLECT _ ?s] =>
      destruct (collecting chat msgs w s [])
        as (st1 & Hrun & Hfiles & Hidx & Hauth1 & _); [done|done|]
  end.
  rewrite Hrun. simpl in Hfiles, Hidx. rewrite Hempty in Hfiles.
  simpl. unfold bs_conv. simpl.
  unfold batch_done, require_login. rewrite Hauth1, Hfiles. simpl.
  eexists. split; [reflexivity|]. simpl. rewrite last_snoc. done.
Qed.

End BatchConversation.

Lemma collection_gathers_attachments_witness :
  let photo_message :=
    {| text := None; document := None;
       photo := [{| ph_file_id := "small"; ph_file_size := Some 10 |};
                 {| ph_file_id := "large"; ph_file_size := Some 900 |}];
       video := None; message_id := 8 |} in
  let msgs := [Samples.text_message "hello"; photo_message] in
  is_authenticated (user_data Samples.collected) = true
  /\ exists st',
       @run Z Samples.picky_bot
         (UCommand "batchsend" [] Samples.private_chat
            :: ((fun m => UMessage m Samples.private_chat) <$> msgs))
         BS_TARGET 5 Samples.collected
       = (5, st', BATCH_COLLECT)
       /\ (file_id_of ∘ file_info <$> default [] (files (user_data st'))) = ["large"].
Proof.
  intros photo_message msgs. split; [reflexivity|].
  destruct (@collection_gathers_attachments Z Samples.picky_bot Samples.private_chat
              [] msgs BS_TARGET 5 Samples.collected eq_refl)
    as (st' & Hrun & Hfiles & _).
  exists st'. split; [exact Hrun|]. by rewrite Hfiles.
Defined.

Lemma session_without_files_ends_witness :
  is_authenticated (user_data Samples.collected) = true
  /\ exists st',
       @run Z Samples.picky_bot
         (UCommand "batchsend" [] Samples.private_chat
            :: ((fun m => UMessage m Samples.private_chat)
                  <$> [Samples.text_message "hi"])
                 ++ [UCommand "done" [] Samples.private_chat])
         END 5 Samples.collected
       = (5, st', END)
       /\ files (user_data st') = Some [].
Proof.
  split; [reflexivity|].
  destruct (@session_without_files_ends Z Samples.picky_bot Samples.private_chat
              [] [] [Samples.text_message "hi"] END 5 Samples.collected eq_refl)
    as (st' & Hrun & _ & Hfiles & _).
  - repeat constructor.
  - exists st'. by split.
Defined.

(** ** Buttons and their callback data *)

Lemma append_nil_r (s : string) : s +:+ "" = s.
Proof.
  induction s as [|a s IH]; [done|].
  change (String a (s +:+ "") = String a s). by rewrite IH.
Qed.

Lemma split_go_skip (sep pre cur s : string) :
  split_go sep (String.length pre) cur (pre +:+ s) = split_go sep 0 cur s.
Proof. induction pre as [|a pre IH]; [done|]. exact IH. Qed.

Lemma split_go_whole (sep cur s : string) :
  contains sep s = false -> split_go sep 0 cur s = [cur +:+ s].
Proof.
  revert cur. induction s as [|c s IH]; intros cur Hno.
  - by rewrite append_nil_r.
  - cbn [contains] in Hno. apply orb_false_elim in Hno as [Hstart Hrest].
    cbn [split_go]. rewrite Hstart, (IH _ Hrest), append_assoc. done.
Qed.

(** [(tag + id).split(tag)] is ["", id] when [id] is free of [tag]. *)
Lemma split_tagged (tag id : string) :
  tag <> "" -> contains tag id = false -> split (tag +:+ id) tag = [""; id].
Proof.
  intros Htag Hno. destruct tag as [|a t]; [done|]. unfold split.
  change (String a t +:+ id) with (String a (t +:+ id)).
  cbn [split_go].
  change (String a (t +:+ id)) with (String a t +:+ id).
  rewrite startswith_app.
  replace (String.length (String a t) - 1)%nat with (String.length t)
    by (simpl; lia).
  rewrite split_go_skip, split_go_whole by done. done.
Qed.

Lemma callback_arg_tagged (tag id : string) :
  tag <> "" -> contains tag id = false -> callback_arg (tag +:+ id) tag = Ok id.
Proof. intros Htag Hno. unfold callback_arg. by rewrite split_tagged. Qed.

(** X7. Every registered group gets a destination button and a table-of-contents
    button whose callback data passes the handler's pattern and, when split
    again, gives back that group's chat id (for an id that does not contain
    the tag). *)
Theorem button_press_round_trip (groups : list (string * value))
    (chat_id : string) (title : value) :
  (chat_id, title) ∈ groups ->
  (contains "bs_target:" chat_id = false ->
   exists data,
     (title, data) ∈ target_buttons groups
     /\ startswith data "bs_target:" = true
     /\ callback_arg data "bs_target:" = Ok chat_id)
  /\ (contains "toc_group:" chat_id = false ->
      exists data,
        (title, data) ∈ toc_buttons groups
        /\ startswith data "toc_group:" = true
        /\ callback_arg data "toc_group:" = Ok chat_id).
Proof.
  intros Hin. split; intros Hclean.
  - exists ("bs_target:" +:+ chat_id). split; [|split].
    + unfold target_buttons. apply list_elem_of_fmap. by exists (chat_id, title).
    + apply startswith_app.
    + by apply callback_arg_tagged.
  - exists ("toc_group:" +:+ chat_id). split; [|split].
    + unfold toc_buttons. apply list_elem_of_fmap. by exists (chat_id, title).
    + apply startswith_app.
    + by apply callback_arg_tagged.
Qed.

Lemma button_press_round_trip_witness :
  exists data,
    (VStr "Archive", data) ∈ target_buttons [("-1001234567890", VStr "Archive")]
    /\ startswith data "bs_target:" = true
    /\ callback_arg data "bs_target:" = Ok "-1001234567890".
Proof.
  apply (button_press_round_trip [("-1001234567890", VStr "Archive")]
           "-1001234567890" (VStr "Archive")).
  - apply list_elem_of_singleton. reflexivity.
  - reflexivity.
Defined.

(** ** The snippet and the frame of the logger *)

Lemma slice_to_length (n : nat) (s : string) :
  String.length (slice_to n s) = (n `min` String.length s)%nat.
Proof.
  revert s. induction n as [|n IH]; intros [|a s]; simpl; try done.
  by rewrite IH.
Qed.

Lemma slice_to_all (n : nat) (s : string) :
  (String.length s <= n)%nat -> slice_to n s = s.
Proof.
  revert s. induction n as [|n IH]; intros [|a s] Hl; simpl in *; try done; [lia|].
  rewrite IH; [done|lia].
Qed.

(** X11. The snippet of a logged message has between 1 and 30 characters: it is
    Non-text for a message without text, and otherwise the first 30
    characters of the text (the whole text when that is no longer). *)
Theorem snippet_bounds (msg : Message) :
  (1 <= String.length (make_snippet msg) <= 30)%nat
  /\ (text msg = None \/ text msg = Some "" -> make_snippet msg = "Non-text")
  /\ (forall t, text msg = Some t -> t <> "" ->
        make_snippet msg = slice_to 30 t
        /\ ((String.length t <= 30)%nat -> make_snippet msg = t)).
Proof.
  unfold make_snippet. split; [|split].
  - assert (Hl : (String.length (slice_to 30 (default "" (text msg))) <= 30)%nat)
      by (rewrite slice_to_length; lia).
    destruct (slice_to 30 (default "" (text msg))) as [|a s];
      cbn [String.length] in *; lia.
  - by intros [-> | ->].
  - intros t -> Ht. simpl. destruct t as [|a t]; [done|]. split; [done|].
    intros Hl. change (slice_to 30 (String a t) = String a t).
    by apply slice_to_all.
Qed.

Lemma snippet_bounds_witness :
  make_snippet (Samples.text_message "hello") = slice_to 30 "hello"
  /\ make_snippet (Samples.text_message "hello") = "hello".
Proof.
  destruct (snippet_bounds (Samples.text_message "hello")) as (_ & _ & Ht).
  destruct (Ht "hello" eq_refl ltac:(discriminate)) as [Hs Hall].
  split; [exact Hs|]. apply Hall. simpl. lia.
Defined.

(** X10. Logging an update changes nothing but the logs, leaves the log of every
    other chat as it was, and does nothing at all for a chat that is no
    group, supergroup or channel or for an update without a message. *)
Theorem log_messages_frame (chat : Chat) (msg : option Message) (st : State) :
  disk (log_messages chat msg st) = disk st
  /\ user_data (log_messages chat msg st) = user_data st
  /\ outbox (log_messages chat msg st) = outbox st
  /\ (forall cid, cid <> str (chat_id chat) ->
        chat_logs (log_messages chat msg st) !! cid = chat_logs st !! cid)
  /\ (loggable chat = false \/ msg = None -> log_messages chat msg st = st).
Proof.
  unfold log_messages.
  destruct (loggable chat); simpl; [|by repeat split].
  destruct msg as [msg|]; simpl; [|repeat split; try done; by intros [|]].
  repeat split; try done.
  - intros cid Hne. by rewrite lookup_insert_ne.
  - by intros [|].
Qed.

Lemma log_messages_frame_witness :
  chat_logs (log_messages Samples.group_chat (Some (Samples.text_message "hello"))
               Samples.fresh) !! "42"
  = chat_logs Samples.fresh !! "42"
  /\ log_messages Samples.private_chat (Some (Samples.text_message "hello"))
       Samples.fresh = Samples.fresh.
Proof.
  split.
  - apply (log_messages_frame Samples.group_chat
             (Some (Samples.text_message "hello")) Samples.fresh).
    vm_compute. discriminate.
  - apply (log_messages_frame Samples.private_chat
             (Some (Samples.text_message "hello")) Samples.fresh).
    left. reflexivity.
Defined.

Lemma log_all_frame (events : list (Chat * option Message)) (st : State) :
  disk (log_all events st) = disk st
  /\ user_data (log_all events st) = user_data st
  /\ outbox (log_all events st) = outbox st.
Proof.
  revert st. induction events as [|[chat msg] events IH]; intros st; [done|].
  change (log_all ((chat, msg) :: events) st)
    with (log_all events (log_messages chat msg st)).
  destruct (IH (log_messages chat msg st)) as (-> & -> & ->).
  unfold log_messages. destruct (loggable chat); simpl; [|done].
  by destruct msg.
Qed.

(** X12. After any sequence of logged updates from empty logs, the table of
    contents of a chat is one reply that lists exactly the last 100 entries
    logged for that chat, in arrival order (or says that no messages are
    logged), and ends the conversation. *)
Theorem toc_lists_recent_messages (events : list (Chat * option Message))
    (st : State) (data cid : string) :
  chat_logs st = ∅ ->
  is_authenticated (user_data st) = true ->
  callback_arg data "toc_group:" = Ok cid ->
  let st1 := log_all events st in
  let shown := last_n 100 (arrivals cid events) in
  toc_select_group data st1
  = (reply_text st1
       (match arrivals cid events with
        | [] => "No messages logged for this group."
        | _ => join (String "010" EmptyString) (toc_line (toc_link_id cid) <$> shown)
        end),
     Ok (Some END))
  /\ (length shown <= 100)%nat
  /\ shown `suffix_of` arrivals cid events.
Proof.
  intros Hempty Hauth Harg st1 shown.
  assert (Hlog : log_of st1 cid = shown).
  { subst st1 shown. rewrite log_all_from; unfold log_of;
      rewrite Hempty, lookup_empty; simpl; [done|lia]. }
  split; [|split].
  - unfold toc_select_group, require_login.
    destruct (log_all_frame events st) as (_ & Hud & _). fold st1 in Hud.
    rewrite Hud, Hauth, Harg. simpl. fold (log_of st1 cid). rewrite Hlog.
    subst shown. unfold last_n.
    destruct (arrivals cid events) as [|e es] eqn:Harr; [done|].
    destruct (drop _ (e :: es)) as [|e' es'] eqn:Hdrop; [|done].
    apply (f_equal length) in Hdrop. rewrite length_drop in Hdrop.
    simpl in Hdrop. lia.
  - subst shown. rewrite last_n_length. lia.
  - apply last_n_suffix.
Qed.

Lemma toc_lists_recent_messages_witness :
  let st := with_user_data Samples.fresh
              (set_authenticated (user_data Samples.fresh) true) in
  let events := [(Samples.group_chat, Some (Samples.text_message "hello"))] in
  (toc_select_group "toc_group:-1001234567890" (log_all events st)).1.(outbox)
  = [Reply "[Msg 7: hello](https://t.me/c/1234567890/7)"].
Proof.
  intros st events.
  destruct (toc_lists_recent_messages events st "toc_group:-1001234567890"
              "-1001234567890" eq_refl eq_refl eq_refl) as (-> & _).
  reflexivity.
Defined.

(** ** Reading back a printed number *)

Ltac eval_digit :=
  repeat match goal with
    | |- context [digit_val ?c] =>
        let v := eval vm_compute in (digit_val c) in change (digit_val c) with v
    end.

Lemma int_digits_acc (d : uint) (acc : positive) :
  int_digits true (Z.pos acc) (NilEmpty.string_of_uint d)
  = Some (Z.pos (Pos.of_uint_acc d acc)).
Proof.
  revert acc. induction d as [|d IH|d IH|d IH|d IH|d IH|d IH|d IH|d IH|d IH|d IH];
    intros acc; [done|..]; cbn [NilEmpty.string_of_uint Pos.of_uint_acc];
    rewrite <- IH; cbn [int_digits]; simpl; eval_digit; f_equal; lia.
Qed.

Lemma int_digits_uint (d : uint) (b : bool) :
  d <> Nil ->
  int_digits b 0 (NilEmpty.string_of_uint d) = Some (Z.of_N (Pos.of_uint d)).
Proof.
  revert b. induction d as [|d IH|d IH|d IH|d IH|d IH|d IH|d IH|d IH|d IH|d IH];
    intros b Hd; [done|..]; cbn [NilEmpty.string_of_uint Pos.of_uint];
    try (cbn [int_digits]; simpl; eval_digit; apply (int_digits_acc d)).
  cbn [int_digits]. simpl. eval_digit. simpl.
  destruct d; [done|..]; by apply IH.
Qed.

Lemma is_digit_not_space (c : ascii) : is_digit c = true -> is_space c = false.
Proof.
  unfold is_digit, is_space. intros [H1 H2]%andb_prop.
  apply Nat.leb_le in H1. apply Nat.leb_le in H2.
  apply orb_false_intro; apply andb_false_iff.
  - right. apply Nat.leb_gt. lia.
  - right. apply Nat.leb_gt. lia.
Qed.

Lemma rstrip_digits (s : string) : all_chars is_digit s = true -> rstrip s = s.
Proof.
  induction s as [|c s IH]; [done|]. intros [Hc Hs]%andb_prop.
  cbn [rstrip]. rewrite (IH Hs).
  destruct s; [|done]. by rewrite (is_digit_not_space c Hc).
Qed.

Lemma strip_digits (s : string) : all_chars is_digit s = true -> strip s = s.
Proof.
  intros Hs. unfold strip. destruct s as [|c s]; [done|].
  pose proof Hs as [Hc _]%andb_prop. cbn [lstrip].
  rewrite (is_digit_not_space c Hc). by apply rstrip_digits.
Qed.

(** [int(str(n)) == n] for a natural number. *)
Lemma int_of_str_str (n : Z) : 0 <= n -> int_of_str (str n) = Some n.
Proof.
  intros Hn. unfold int_of_str. rewrite strip_digits by by apply str_nonneg_digits.
  destruct n as [|p|p]; [done| |lia]. unfold str. simpl.
  pose proof (Unsigned.to_uint_nonnil p) as Hnil.
  pose proof (Unsigned.of_to p) as Hof.
  unfold NilZero.string_of_uint.
  assert (Hval : int_digits false 0 (NilEmpty.string_of_uint (Pos.to_uint p))
                 = Some (Z.pos p))
    by (rewrite int_digits_uint by done; by rewrite Hof).
  pose proof (uint_digits (Pos.to_uint p)) as Hdig.
  destruct (Pos.to_uint p) as [|d|d|d|d|d|d|d|d|d|d]; done.
Qed.

Lemma nonempty_app (a b : string) : nonempty a = true -> nonempty (a +:+ b) = true.
Proof. by destruct a. Qed.

Lemma fmt_02d_nonempty (n : Z) : nonempty (fmt_02d n) = true.
Proof.
  pose proof (fmt_02d_length n) as Hl. destruct (fmt_02d n); [simpl in Hl; lia|done].
Qed.

Lemma format_duration_nonempty (n : Z) : nonempty (format_duration (VInt n)) = true.
Proof.
  unfold format_duration. simpl. case_match; apply nonempty_app, fmt_02d_nonempty.
Qed.

(** X8. The link text of a collected video with a non-negative duration reads
    label, size and duration, the duration being format_duration of the
    video's own duration (stored as text and read back); for a document, a
    photo or a video with a negative duration it reads label and size only. *)
Theorem video_link_shows_duration (label : option string) (sent : Sent) :
  (forall (msg : Message) (v : Video),
      document msg = None -> photo msg = [] -> video msg = Some v ->
      0 <= vid_duration v ->
      exists f,
        classify msg = Some f
        /\ hyperlink_msg (set_prefix f label) sent
           = "[" +:+ fmt_opt label +:+ " (Size: "
               +:+ format_file_size (vid_file_size v) +:+ ", Duration: "
               +:+ format_duration (VInt (vid_duration v)) +:+ ")]("
               +:+ hyperlink_url sent +:+ ")")
  /\ (forall (msg : Message) (f : FDict),
        classify msg = Some f ->
        (file_type f <> TVideo
         \/ exists v, video msg = Some v /\ file_info f = AVideo v
                      /\ vid_duration v < 0) ->
        hyperlink_msg (set_prefix f label) sent
        = "[" +:+ fmt_opt label +:+ " (Size: "
            +:+ format_file_size (file_size_of (file_info f)) +:+ ")]("
            +:+ hyperlink_url sent +:+ ")").
Proof.
  split.
  - intros msg v Hdoc Hphoto Hvideo Hdur. unfold classify.
    rewrite Hdoc, Hphoto, Hvideo. simpl. eexists. split; [reflexivity|].
    unfold hyperlink_msg. simpl.
    assert (Hdig : isdigit (str (vid_duration v)) = true).
    { unfold isdigit. pose proof (str_nonempty (vid_duration v)).
      pose proof (str_nonneg_digits _ Hdur). by destruct (str (vid_duration v)). }
    assert (Hne : nonempty (str (vid_duration v)) = true).
    { pose proof (str_nonempty (vid_duration v)). by destruct (str (vid_duration v)). }
    rewrite Hne, Hdig. simpl.
    assert (Hfmt : format_duration (VStr (str (vid_duration v)))
                   = format_duration (VInt (vid_duration v))).
    { unfold format_duration, py_int. by rewrite int_of_str_str. }
    rewrite Hfmt, format_duration_nonempty. by rewrite !append_assoc.
  - intros msg f Hf Hcase. unfold hyperlink_msg.
    assert (Hdur : (if nonempty (additional (set_prefix f label))
                       && isdigit (additional (set_prefix f label))
                    then format_duration (VStr (additional (set_prefix f label)))
                    else "") = "").
    { unfold classify in Hf.
      destruct (document msg) as [d|]; [by simplify_eq|].
      destruct (last (photo msg)) as [p|]; [by simplify_eq|].
      destruct (video msg) as [v|]; [|done]. simplify_eq. simpl.
      destruct Hcase as [Hty | (v' & Hv & Hinfo & Hneg)]; [done|].
      simplify_eq/=. by destruct (vid_duration v'); try lia. }
    rewrite Hdur. simpl. by rewrite !append_assoc.
Qed.

Lemma video_link_shows_duration_witness :
  let msg := {| text := None; document := None; photo := [];
                video := Some {| vid_file_id := "video-1"; vid_file_name := None;
                                 vid_file_size := Some 5000000;
                                 vid_duration := 3725 |};
                message_id := 9 |} in
  exists f,
    classify msg = Some f
    /\ hyperlink_msg (set_prefix f (Some "Talk"))
         {| sent_chat_id := -1001234567890; sent_message_id := 55 |}
       = "[Talk (Size: 4.77 MB, Duration: 01:02:05)](https://t.me/c/1234567890/55)".
Proof.
  intros msg.
  destruct (video_link_shows_duration (Some "Talk")
              {| sent_chat_id := -1001234567890; sent_message_id := 55 |})
    as [Hvideo _].
  destruct (Hvideo msg _ eq_refl eq_refl eq_refl ltac:(simpl; lia)) as (f & Hf & Hmsg).
  exists f. split; [exact Hf|]. rewrite Hmsg. reflexivity.
Defined.

(** ** The registry of groups *)

Lemma assoc_None (k : string) (kv : list (string * value)) :
  assoc k kv = None <-> k ∉ kv.*1.
Proof.
  induction kv as [|[k' v] kv IH]; simpl.
  - split; [intros _; apply not_elem_of_nil|done].
  - rewrite not_elem_of_cons, <- IH.
    destruct (String.eqb_spec k k') as [->|Hne]; split; try done.
    + by intros [? _].
    + by intros [_ ?].
Qed.

Lemma assoc_set_fresh (k : string) (v : value) (kv : list (string * value)) :
  assoc k kv = None -> assoc_set k v kv = kv ++ [(k, v)].
Proof.
  induction kv as [|[k' v'] kv IH]; simpl; [done|].
  destruct (String.eqb k k'); [done|]. intros Hk. by rewrite IH.
Qed.

Lemma assoc_app (k : string) (kv kv' : list (string * value)) :
  assoc k (kv ++ kv') = match assoc k kv with Some v => Some v | None => assoc k kv' end.
Proof.
  induction kv as [|[k' v'] kv IH]; simpl; [done|].
  by destruct (String.eqb k k').
Qed.

Lemma load_after_save_groups (d : gmap string file) (groups : value) :
  load_groups (save_groups d groups) = groups
  /\ save_groups d groups !! PASSWORD_FILE = d !! PASSWORD_FILE.
Proof.
  unfold load_groups, save_groups, json_load, json_dump. split.
  - by rewrite lookup_insert_eq.
  - by rewrite lookup_insert_ne.
Qed.

Section RegistryFacts.
Variable repr_container : value -> string.

(** X13. For a logged-in user and a registry that is a mapping, /addgroup leaves
    the chat registered: a chat already there keeps its title and the disk
    is unchanged, a new chat is appended under its display name; other
    entries, the password file and the session are untouched, and a second
    /addgroup changes nothing and reports the chat as already added. *)
Theorem addgroup_registers_once (chat : Chat) (st : State)
    (kv : list (string * value)) :
  is_authenticated (user_data st) = true ->
  load_groups (disk st) = VDict kv ->
  let cid := str (chat_id chat) in
  let st1 := (addgroup repr_container chat st).1 in
  let st2 := (addgroup repr_container chat st1).1 in
  exists kv1 t,
    load_groups (disk st1) = VDict kv1
    /\ assoc cid kv1 = Some t
    /\ (forall t0, assoc cid kv = Some t0 -> t = t0 /\ disk st1 = disk st)
    /\ (assoc cid kv = None ->
        t = VStr (chat_display chat) /\ kv1 = kv ++ [(cid, t)])
    /\ (forall k, k <> cid -> assoc k kv1 = assoc k kv)
    /\ disk st1 !! PASSWORD_FILE = disk st !! PASSWORD_FILE
    /\ user_data st1 = user_data st
    /\ disk st2 = disk st1
    /\ last (outbox st2)
       = Some (Reply ("Chat '" +:+ fmt_value repr_container t +:+ "' is already added.")).
Proof.
  intros Hauth Hload cid st1 st2.
  assert (Htaken : forall (s : State) kv0 t0,
             is_authenticated (user_data s) = true ->
             load_groups (disk s) = VDict kv0 -> assoc cid kv0 = Some t0 ->
             addgroup repr_container chat s
             = (reply_text s ("Chat '" +:+ fmt_value repr_container t0
                                +:+ "' is already added."), Ok None)).
  { intros s kv0 t0 Ha Hl Hk. unfold addgroup, require_login.
    rewrite Ha, Hl. simpl. fold cid. by rewrite Hk. }
  destruct (assoc cid kv) as [t0|] eqn:Hkv.
  - assert (Hst1 : st1 = reply_text st ("Chat '" +:+ fmt_value repr_container t0
                                          +:+ "' is already added."))
      by (subst st1; by rewrite (Htaken st kv t0)).
    exists kv, t0. rewrite Hst1. simpl.
    split; [done|]. split; [done|]. split; [by intros ? [= <-]|].
    split; [done|]. split; [done|]. split; [done|]. split; [done|].
    subst st2. rewrite Hst1, (Htaken _ kv t0) by done. simpl.
    split; [done|]. by rewrite last_snoc.
  - assert (Hst1 : st1 = reply_text
                           (with_disk st (save_groups (disk st)
                              (VDict (kv ++ [(cid, VStr (chat_display chat))]))))
                           ("Chat '" +:+ chat_display chat
                              +:+ "' added successfully.")).
    { subst st1. unfold addgroup, require_login. rewrite Hauth, Hload. simpl.
      fold cid. rewrite Hkv. simpl. by rewrite assoc_set_fresh. }
    destruct (load_after_save_groups (disk st)
                (VDict (kv ++ [(cid, VStr (chat_display chat))]))) as [Hl Hp].
    assert (Hcid : assoc cid (kv ++ [(cid, VStr (chat_display chat))])
                   = Some (VStr (chat_display chat))).
    { rewrite assoc_app, Hkv. simpl. by rewrite String.eqb_refl. }
    exists (kv ++ [(cid, VStr (chat_display chat))]), (VStr (chat_display chat)).
    rewrite Hst1. simpl.
    split; [done|]. split; [done|]. split; [done|]. split; [done|]. split.
    { intros k Hk. rewrite assoc_app. simpl.
      destruct (String.eqb_spec k cid); [done|]. by destruct (assoc k kv). }
    split; [done|]. split; [done|].
    subst st2. rewrite Hst1. erewrite Htaken; [|done|exact Hl|exact Hcid]. simpl.
    split; [done|]. by rewrite last_snoc.
Qed.

(** X15. /addprivatechannel changes the disk only for a logged-in user and an id
    that starts with -100 and is not registered yet; it then appends that id
    under the custom name (the remaining arguments joined by spaces and
    stripped) or, without one, under PrivateChannel_<id>, and leaves the
    password file and the session alone. *)
Theorem addprivatechannel_needs_prefix (args : list string) (st : State)
    (kv : list (string * value)) :
  load_groups (disk st) = VDict kv ->
  let st1 := (addprivatechannel repr_container args st).1 in
  user_data st1 = user_data st
  /\ (disk st1 = disk st
      \/ exists id more,
           args = id :: more
           /\ is_authenticated (user_data st) = true
           /\ startswith id "-100" = true
           /\ assoc id kv = None
           /\ load_groups (disk st1)
              = VDict (kv ++ [(id, VStr (match more with
                                          | [] => "PrivateChannel_" +:+ id
                                          | _ => strip (join " " more)
                                          end))])
           /\ disk st1 !! PASSWORD_FILE = disk st !! PASSWORD_FILE).
Proof.
  intros Hload st1. subst st1. unfold addprivatechannel, require_login, denied.
  destruct (is_authenticated (user_data st)); simpl; [|by split; [|left]].
  destruct args as [|id more]; simpl; [by split; [|left]|].
  destruct (startswith id "-100") eqn:Hpre; simpl; [|by split; [|left]].
  rewrite Hload. simpl.
  destruct (assoc id kv) as [t|] eqn:Hid; simpl; [by split; [|left]|].
  split; [done|]. right. exists id, more.
  rewrite assoc_set_fresh by done.
  match goal with
  | |- context [save_groups ?d ?g] =>
      destruct (load_after_save_groups d g) as [Hl Hp]
  end.
  repeat split; done.
Qed.

Lemma addgroup_shape (chat : Chat) (st : State) (kv : list (string * value)) :
  load_groups (disk st) = VDict kv ->
  load_groups (disk (addgroup repr_container chat st).1) = VDict kv
  \/ exists k v, assoc k kv = None
                 /\ load_groups (disk (addgroup repr_container chat st).1)
                    = VDict (kv ++ [(k, v)]).
Proof.
  intros Hload. unfold addgroup, require_login, denied.
  destruct (is_authenticated (user_data st)); simpl; [|by left].
  rewrite Hload. simpl.
  destruct (assoc (str (chat_id chat)) kv) eqn:Hid; simpl; [by left|].
  right. eexists _, _. split; [exact Hid|].
  rewrite assoc_set_fresh by done.
  match goal with
  | |- context [save_groups ?d ?g] =>
      by destruct (load_after_save_groups d g) as [-> _]
  end.
Qed.

Lemma addprivatechannel_shape (args : list string) (st : State)
    (kv : list (string * value)) :
  load_groups (disk st) = VDict kv ->
  load_groups (disk (addprivatechannel repr_container args st).1) = VDict kv
  \/ exists k v, assoc k kv = None
                 /\ load_groups (disk (addprivatechannel repr_container args st).1)
                    = VDict (kv ++ [(k, v)]).
Proof.
  intros Hload. unfold addprivatechannel, require_login, denied.
  destruct (is_authenticated (user_data st)); simpl; [|by left].
  destruct args as [|id more]; simpl; [by left|].
  destruct (startswith id "-100"); simpl; [|by left].
  rewrite Hload. simpl.
  destruct (assoc id kv) eqn:Hid; simpl; [by left|].
  right. eexists _, _. split; [exact Hid|].
  rewrite assoc_set_fresh by done.
  match goal with
  | |- context [save_groups ?d ?g] =>
      by destruct (load_after_save_groups d g) as [-> _]
  end.
Qed.

Lemma command_step (u : Update) (st : State) (kv : list (string * value)) :
  load_groups (disk st) = VDict kv ->
  load_groups (disk (command_handlers repr_container u st)) = VDict kv
  \/ exists k v, assoc k kv = None
                 /\ load_groups (disk (command_handlers repr_container u st))
                    = VDict (kv ++ [(k, v)]).
Proof.
  intros Hload. unfold command_handlers.
  destruct u as [name args chat|msg chat|data]; [|by left..].
  destruct (String.eqb name "start"); [by left|].
  destruct (String.eqb name "commands"); [by left|].
  destruct (String.eqb name "login").
  { left. unfold login. by repeat case_match. }
  destruct (String.eqb name "changepassword").
  { left. unfold changepassword, require_login, denied.
    repeat case_match; simpl; try done.
    unfold load_groups, save_password, json_load, json_dump in *.
    by rewrite lookup_insert_ne. }
  destruct (String.eqb name "addgroup"); [by apply addgroup_shape|].
  destruct (String.eqb name "addprivatechannel");
    [by apply addprivatechannel_shape|].
  destruct (String.eqb name "listgroups"); [|by left].
  left. unfold listgroups, require_login, denied. by repeat case_match.
Qed.

(** X14. Over any sequence of the plain commands (start, commands, login,
    changepassword, addgroup, addprivatechannel, listgroups), a registry
    that is a mapping with distinct keys only grows at its end: it stays a
    mapping with distinct keys and every entry keeps its title. *)
Theorem registry_is_append_only (us : list Update) (st : State)
    (kv : list (string * value)) :
  load_groups (disk st) = VDict kv ->
  NoDup kv.*1 ->
  exists added,
    load_groups (disk (command_run repr_container us st)) = VDict (kv ++ added)
    /\ NoDup (kv ++ added).*1
    /\ forall k v, assoc k kv = Some v -> assoc k (kv ++ added) = Some v.
Proof.
  revert st kv. induction us as [|u us IH]; intros st kv Hload Hnd.
  - exists []. rewrite app_nil_r. done.
  - change (command_run repr_container (u :: us) st)
      with (command_run repr_container us (command_handlers repr_container u st)).
    destruct (command_step u st kv Hload) as [Hsame | (k & v & Hfresh & Hgrown)].
    + destruct (IH _ kv Hsame Hnd) as (added & Hl & Hn & Hkeep). eauto.
    + destruct (IH _ (kv ++ [(k, v)]) Hgrown) as (added & Hl & Hn & Hkeep).
      { rewrite fmap_app. apply NoDup_app. split; [done|]. split.
        - intros x Hx [->|[]%elem_of_nil]%elem_of_cons.
          by apply assoc_None in Hfresh.
        - simpl. apply NoDup_singleton. }
      rewrite <- app_assoc in Hl, Hn, Hkeep.
      exists ([(k, v)] ++ added). split; [done|]. split; [done|].
      intros k0 v0 Hk0. apply Hkeep. rewrite assoc_app. by rewrite Hk0.
Qed.

End RegistryFacts.

Lemma addprivatechannel_needs_prefix_witness :
  let st := with_user_data Samples.fresh
              (set_authenticated (user_data Samples.fresh) true) in
  load_groups (disk st) = VDict []
  /\ load_groups (disk (addprivatechannel (fun _ => "") ["-100777"; "My"; "Channel"] st).1)
     = VDict [("-100777", VStr "My Channel")]
  /\ disk (addprivatechannel (fun _ => "") ["777"] st).1 = disk st.
Proof.
  intros st. split; [reflexivity|]. split.
  - destruct (addprivatechannel_needs_prefix (fun _ => "") ["-100777"; "My"; "Channel"] st []
                eq_refl) as [_ [Hsame | (id & more & Hargs & _ & _ & _ & Hl & _)]].
    + apply (f_equal load_groups) in Hsame. vm_compute in Hsame. discriminate.
    + simplify_eq. exact Hl.
  - destruct (addprivatechannel_needs_prefix (fun _ => "") ["777"] st [] eq_refl)
      as [_ [Hsame | (id & more & Hargs & _ & Hpre & _)]]; [done|].
    by simplify_eq.
Defined.

Lemma registry_is_append_only_witness :
  let st := with_user_data Samples.fresh
              (set_authenticated (user_data Samples.fresh) true) in
  let us := [UCommand "addgroup" [] Samples.group_chat;
             UCommand "addprivatechannel" ["-100777"] Samples.private_chat;
             UCommand "addgroup" [] Samples.group_chat;
             UCommand "changepassword" ["s3cret"; "x"] Samples.private_chat] in
  load_groups (disk st) = VDict []
  /\ load_groups (disk (command_run (fun _ => "") us st))
     = VDict [("-1001234567890", VStr "Archive");
              ("-100777", VStr "PrivateChannel_-100777")].
Proof.
  intros st us. split; [reflexivity|].
  destruct (registry_is_append_only (fun _ => "") us st [] eq_refl (NoDup_nil_2))
    as (added & Hl & _).
  rewrite Hl. vm_compute in Hl. by simplify_eq.
Defined.


Lemma addgroup_registers_once_witness :
  let st := with_user_data Samples.fresh
              (set_authenticated (user_data Samples.fresh) true) in
  is_authenticated (user_data st) = true
  /\ load_groups (disk st) = VDict []
  /\ load_groups (disk (addgroup (fun _ => "") Samples.group_chat st).1)
     = VDict [("-1001234567890", VStr "Archive")].
Proof.
  intros st. split; [reflexivity|]. split; [reflexivity|].
  destruct (addgroup_registers_once (fun _ => "") Samples.group_chat st []
              eq_refl eq_refl) as (kv1 & t & Hl & _ & _ & Hnew & _).
  destruct (Hnew eq_refl) as [-> ->]. exact Hl.
Defined.

(** ** The /toc conversation *)

(** X16. For a logged-in user with a non-empty registry, /toc offers one button
    per group and awaits a choice; pressing the button of a group answers
    with that group's table of contents and ends the conversation; a button
    pressed outside the conversation is ignored. *)
Theorem toc_conversation (st : State) (kv : list (string * value))
    (cid : string) (title : value) (args : list string) (chat : Chat)
    (c : TocState) :
  is_authenticated (user_data st) = true ->
  load_groups (disk st) = VDict kv ->
  (cid, title) ∈ kv ->
  contains "toc_group:" cid = false ->
  let offered := say st (ReplyKeyboard "Select a group for TOC:" (toc_buttons kv)) in
  toc_conv (UCommand "toc" args chat) c st = (offered, TOC_CHOOSE)
  /\ (title, "toc_group:" +:+ cid) ∈ toc_buttons kv
  /\ toc_conv (UCallback ("toc_group:" +:+ cid)) TOC_CHOOSE offered
     = (reply_text offered
          (match log_of st cid with
           | [] => "No messages logged for this group."
           | msgs => join (String "010" EmptyString) (toc_line (toc_link_id cid) <$> msgs)
           end),
        TOC_END)
  /\ (forall data st0, toc_conv (UCallback data) TOC_END st0 = (st0, TOC_END)).
Proof.
  intros Hauth Hload Hin Hclean offered.
  split; [|split; [|split]].
  - unfold toc_conv. simpl. unfold toc_command. rewrite Hauth, Hload. simpl.
    destruct kv as [|kv0 kv']; [by apply elem_of_nil in Hin|done].
  - unfold toc_buttons. apply list_elem_of_fmap. by exists (cid, title).
  - unfold toc_conv. cbn [is_command]. rewrite (startswith_app "toc_group:" cid).
    unfold toc_select_group, require_login. subst offered. cbn [fst snd].
    change (is_authenticated (user_data (say st _)))
      with (is_authenticated (user_data st)).
    rewrite Hauth. simpl.
    rewrite (callback_arg_tagged "toc_group:" cid) by done. simpl.
    unfold log_of. by destruct (default [] (chat_logs st !! cid)).
  - done.
Qed.

Lemma toc_conversation_witness :
  let st := (addgroup (fun _ => "") Samples.group_chat
               (with_user_data Samples.fresh
                  (set_authenticated (user_data Samples.fresh) true))).1 in
  (toc_conv (UCommand "toc" [] Samples.private_chat) TOC_END st).2 = TOC_CHOOSE.
Proof.
  intros st.
  destruct (toc_conversation st [("-1001234567890", VStr "Archive")]
              "-1001234567890" (VStr "Archive") [] Samples.private_chat TOC_END)
    as [-> _]; try reflexivity.
  apply list_elem_of_singleton. reflexivity.
Defined.

(** ** Sizes in their bands *)

Lemma nearest_bounds (q b k lo hi : Z) :
  0 < k -> nearest_hundredth q b k -> lo * k <= b -> b < hi * k ->
  100 * lo <= q <= 100 * hi.
Proof. unfold nearest_hundredth. intros Hk Hq Hlo Hhi. nia. Qed.

(** X9. In the KB and in the MB band the number printed by format_file_size lies
    between 1.00 and 1024.00. *)
Theorem size_number_within_band (b : Z) :
  (1024 <= b < 1024 ^ 2 ->
   exists q, format_file_size (Some b)
               = str (q / 100) +:+ "." +:+ two_digits (q mod 100) +:+ " KB"
             /\ 100 <= q <= 102400)
  /\ (1024 ^ 2 <= b < 1024 ^ 3 ->
      exists q, format_file_size (Some b)
                  = str (q / 100) +:+ "." +:+ two_digits (q mod 100) +:+ " MB"
                /\ 100 <= q <= 102400).
Proof.
  split; intros Hb; unfold format_file_size;
    destruct (Z.ltb_spec b 1024); try lia;
    destruct (Z.ltb_spec b (1024 * 1024)); try lia;
    try (destruct (Z.ltb_spec b (1024 * 1024 * 1024)); try lia);
    unfold int_div_1024, div_1024; rewrite float_of_int_exact by lia; simpl;
    (eexists; split;
     [unfold fmt_2f, decimal_2; rewrite !append_assoc; reflexivity|]).
  - change (0 - 10) with (- 10).
    apply (nearest_bounds _ b (2 ^ 10) 1 1024); [lia| |lia|lia].
    apply band_exact; lia.
  - change (0 - 10 - 10) with (- 20).
    apply (nearest_bounds _ b (2 ^ 20) 1 1024); [lia| |lia|lia].
    apply band_exact; lia.
Qed.

Lemma size_number_within_band_witness :
  exists q, format_file_size (Some 1048575)
            = str (q / 100) +:+ "." +:+ two_digits (q mod 100) +:+ " KB"
            /\ 100 <= q <= 102400.
Proof. apply (size_number_within_band 1048575). lia. Defined.

End RelayExtra.

Module LookupExtra.
Import Py Lookup LookupFacts.

(** ** What the best match is *)


(** X17. select_best_match returns None on an empty list and otherwise an
    element of the list: the first one whose lowered title contains the
    lowered query, or the head of the list when no title contains it. *)
Theorem select_best_match_member (results : list Item) (query : string) :
  let hit it := contains (lower query) (lower (default "" (item_title it))) in
  (results = [] -> select_best_match results query = None)
  /\ (results <> [] ->
      exists item,
        select_best_match results query = Some item
        /\ item ∈ results
        /\ ((hit item = true
             /\ exists before after,
                  results = before ++ item :: after
                  /\ Forall (fun it => hit it = false) before)
            \/ (Forall (fun it => hit it = false) results
                /\ head results = Some item))).
Proof.
  intros hit. split; [by intros ->|]. intros Hne. unfold select_best_match.
  pose proof (first_hit_spec (lower query) results) as Hspec.
  destruct (first_hit (lower query) results) as [item|].
  - destruct Hspec as (before & after & -> & Hhit & Hbefore).
    exists item. split; [done|]. split.
    + apply elem_of_app. right. apply elem_of_cons. by left.
    + left. split; [done|]. by exists before, after.
  - destruct results as [|item rest]; [done|]. exists item.
    split; [done|]. split; [apply elem_of_cons; by left|]. by right.
Qed.

Lemma select_best_match_member_witness :
  exists item,
    select_best_match [Samples.titled "Bleach"; Samples.titled "One Piece"] "piece"
    = Some item
    /\ item ∈ [Samples.titled "Bleach"; Samples.titled "One Piece"].
Proof.
  destruct (select_best_match_member
              [Samples.titled "Bleach"; Samples.titled "One Piece"] "piece")
    as [_ Hsome].
  destruct (Hsome ltac:(discriminate)) as (item & Hsel & Hin & _).
  by exists item.
Defined.

(** ** The caption *)




(** ** Lookups and the conversation *)

Section LookupFlow.
Context {W : Type} `{Services W}.

Lemma search_media_nothing (w : W) (query kind : string) :
  (forall w' url,
      status_code (requests_get w' url).2 <> 200
      \/ default [] (data (requests_get w' url).2) = []) ->
  (search_media w query kind).2 = [].
Proof.
  intros Hnothing. unfold search_media.
  set (url := "https://api.jikan.moe/v4/" +:+ kind +:+ "?q=" +:+ query +:+ "&limit=10").
  specialize (Hnothing w url).
  destruct (requests_get w url) as [w1 response]. simpl in *.
  destruct (Z.eqb_spec (status_code response) 200) as [Heq|Hne]; simpl.
  - by destruct Hnothing.
  - done.
Qed.

(** X19. When the search service answers every request with a status other than
    200 or with no data, get_media_info finds nothing and a query message
    ends the conversation at once with the not-found reply, the query stored
    and no result stored. *)
Theorem no_results_end_the_lookup (text : string) (w : W) (st : State) :
  (forall w' url,
      status_code (requests_get w' url).2 <> 200
      \/ default [] (data (requests_get w' url).2) = []) ->
  text <> "" ->
  (get_media_info w text).2 = None
  /\ (conv_handler (UText text) END w st).2 = END
  /\ (conv_handler (UText text) END w st).1.2
     = reply_text (with_user_data st (set_query (user_data st) text))
         "Sorry, no media found for your query.".
Proof.
  intros Hnothing Htext.
  assert (Hinfo : (get_media_info w text).2 = None).
  { unfold get_media_info.
    pose proof (search_media_nothing w text "anime" Hnothing) as Ha.
    destruct (search_media w text "anime") as [w1 rs]. simpl in Ha. subst rs. simpl.
    pose proof (search_media_nothing w1 text "manga" Hnothing) as Hm.
    destruct (search_media w1 text "manga") as [w2 rs]. simpl in Hm. by subst rs. }
  split; [done|].
  unfold conv_handler, message_text. destruct text as [|a text]; [done|].
  unfold media_query_handler.
  destruct (get_media_info w (String a text)) as [w1 [i|]]; [done|]. done.
Qed.


(** The photos of the characters: one per character with an image that
    could be sent, in order. *)
Lemma send_character_photos_outbox (chars : list (string * string)) (w : W)
    (st : State) :
  exists extras,
    outbox (send_character_photos w st chars).2 = outbox st ++ extras
    /\ extras `sublist_of` ((fun char => Photo char.2 char.1) <$> chars)
    /\ Forall (fun o => exists name url, o = Photo url name /\ url <> "") extras.
Proof.
  revert w st. induction chars as [|[name url] chars IH]; intros w st.
  - exists []. by rewrite app_nil_r.
  - simpl. destruct url as [|a url].
    + destruct (IH w st) as (extras & Hout & Hsub & Hall).
      exists extras. split; [done|]. split; [by apply sublist_cons|done].
    + destruct (reply_photo w (String a url) name) as [w1 [[]|e]].
      * destruct (IH w1 (say st (Photo (String a url) name)))
          as (extras & Hout & Hsub & Hall).
        exists (Photo (String a url) name :: extras). split; [|split].
        -- rewrite Hout. simpl. by rewrite <- app_assoc.
        -- by apply sublist_skip.
        -- constructor; [by eexists _, _|done].
      * destruct (IH w1 st) as (extras & Hout & Hsub & Hall).
        exists extras. split; [done|]. split; [by apply sublist_cons|done].
Qed.

(** X21. The final presentation leaves the session as it is and always sends
    exactly one primary message, as text or as the cover photo with the text
    as caption, followed only by photos of characters that have an image, in
    order; without images it is the text alone, and the text is the built
    reply unless a translation was asked for and succeeded. *)
Theorem present_sends_one_primary_message (i : Info) (w : W) (st : State) :
  exists body primary extras,
    outbox (present i w st).2 = outbox st ++ primary :: extras
    /\ user_data (present i w st).2 = user_data st
    /\ (primary = Reply body \/ primary = Photo (image_url i) body)
    /\ (default false (images (user_data st)) = false ->
        primary = Reply body /\ extras = [])
    /\ extras `sublist_of` ((fun char => Photo char.2 char.1) <$> characters i)
    /\ Forall (fun o => exists name url, o = Photo url name /\ url <> "") extras
    /\ (default false (want_translate (user_data st)) = false ->
        body = build_reply i)
    /\ (forall e, (translate w (synopsis i)).2 = Raise e -> body = build_reply i).
Proof.
  pose proof (present_user_data i w st) as Hud.
  unfold present in *.
  set (tr := if default false (want_translate (user_data st))
             then match translate w (synopsis i) with
                  | (w0, Ok translated) =>
                      (w0, replace (build_reply i) (synopsis i) translated)
                  | (w0, Raise _) => (w0, build_reply i)
                  end
             else (w, build_reply i)) in *.
  assert (Hbody : (default false (want_translate (user_data st)) = false ->
                   tr.2 = build_reply i)
                  /\ (forall e, (translate w (synopsis i)).2 = Raise e ->
                                tr.2 = build_reply i)).
  { subst tr. split.
    - by intros ->.
    - intros e He. destruct (default false (want_translate (user_data st))); [|done].
      by destruct (translate w (synopsis i)) as [w0 [t|e0]]. }
  destruct tr as [w0 body]. simpl in Hbody. destruct Hbody as [Hno Hfail].
  exists body.
  destruct (default false (images (user_data st))) eqn:Himg.
  - destruct (reply_photo w0 (image_url i) body) as [w1 [[]|e]].
    + destruct (send_character_photos_outbox (characters i) w1
                  (say st (Photo (image_url i) body))) as (extras & Hout & Hsub & Hall).
      exists (Photo (image_url i) body), extras. rewrite Hout. simpl.
      rewrite <- app_assoc. repeat split; auto. all: done.
    + destruct (send_character_photos_outbox (characters i) w1
                  (reply_text st body)) as (extras & Hout & Hsub & Hall).
      exists (Reply body), extras. rewrite Hout. simpl.
      rewrite <- app_assoc. repeat split; auto. all: done.
  - exists (Reply body), []. simpl. repeat split; auto.
    + apply sublist_nil_l.
Qed.
End LookupFlow.

Lemma no_results_end_the_lookup_witness :
  (@conv_handler unit Samples.offline (UText "naruto") END tt Samples.asked).2 = END.
Proof.
  apply (@no_results_end_the_lookup unit Samples.offline "naruto" tt Samples.asked).
  - intros w' url. left. vm_compute. discriminate.
  - discriminate.
Defined.


Section WholeConversation.
Context {W : Type} `{Services W}.

Lemma is_yes_nonempty (text : string) : is_yes text = true -> text <> "".
Proof. by intros Hyes ->. Qed.

Lemma process_updates_cons (u : Update) (us : list Update) (c : ConvState) (w : W)
    (st : State) :
  process_updates (u :: us) c w st
  = process_updates us (process_update u c w st).2 (process_update u c w st).1.1
      (process_update u c w st).1.2.
Proof. simpl. by destruct (process_update u c w st) as [[w1 st1] c1]. Qed.

Lemma step_query (q : string) (w w1 : W) (st : State) (i : Info) :
  get_media_info w q = (w1, Some i) -> q <> "" ->
  process_update (UText q) END w st
  = (w1, reply_text
           (with_user_data (with_user_data st (set_query (user_data st) q))
              (set_info (set_query (user_data st) q) i))
           ("I found: " +:+ title i
              +:+ ". Is that the anime/manga you meant? (Yes/No)"), CONFIRM).
Proof.
  intros Hfound Hq. destruct q as [|q0 q]; [done|].
  unfold process_update, conv_handler, message_text, media_query_handler.
  by rewrite Hfound.
Qed.

Lemma step_answer (text : string) (c : ConvState) (w : W) (st : State) :
  text <> "" ->
  process_update (UText text) c w st
  = match c with
    | END => process_update (UText text) END w st
    | CONFIRM => (w, (confirm_handler text st).1,
                  update_state c (confirm_handler text st).2)
    | ASK_IMAGES => (w, (ask_images_handler text st).1, ASK_TRANSLATE)
    | ASK_TRANSLATE => (w, (ask_translate_handler text st).1, ASK_SEASON)
    | ASK_SEASON =>
        ((ask_season_handler text w st).1.1, (ask_season_handler text w st).1.2,
         update_state c (ask_season_handler text w st).2)
    end.
Proof.
  intros Htext. destruct text as [|t0 text]; [done|].
  destruct c; try done.
  unfold process_update, conv_handler, message_text.
  by destruct (ask_season_handler (String t0 text) w st) as [[w1 st1] r].
Qed.

(** X22. A query that finds a result, an affirmative confirmation and two
    further answers take the conversation through its four prompts to the
    season question, with the two answers recorded as booleans; a reply of
    skip then presents the found result and ends the conversation. *)
Theorem lookup_conversation (q yes a b skip : string) (w w1 : W) (st : State)
    (i : Info) :
  get_media_info w q = (w1, Some i) ->
  q <> "" -> a <> "" -> b <> "" ->
  is_yes yes = true ->
  lower skip = "skip" ->
  let asked :=
    {| user_data := {| query := Some q; info := Some i;
                       images := Some (is_yes a);
                       want_translate := Some (is_yes b);
                       season := season (user_data st) |};
       outbox := outbox st
                   ++ [Reply ("I found: " +:+ title i
                                +:+ ". Is that the anime/manga you meant? (Yes/No)");
                       Reply "Do you want images? (Yes/No)";
                       Reply "Do you want to translate the synopsis to English? (Yes/No)";
                       Reply "If the series has multiple seasons, enter the season number (or type 'skip' to use default)."] |} in
  let final := present i w1 (with_user_data asked (set_season (user_data asked) None)) in
  process_updates [UText q; UText yes; UText a; UText b] END w st
  = (w1, asked, ASK_SEASON)
  /\ process_updates [UText q; UText yes; UText a; UText b; UText skip] END w st
     = (final.1, final.2, END)
  /\ info (user_data final.2) = Some i.
Proof.
  intros Hfound Hq Ha Hb Hyes Hskip asked final.
  pose proof (is_yes_nonempty yes Hyes) as Hy.
  assert (Hs : skip <> "") by (intros ->; discriminate).
  assert (Hfour :
    process_updates [UText q; UText yes; UText a; UText b] END w st
    = (w1, asked, ASK_SEASON)).
  { rewrite process_updates_cons, (step_query q w w1 st i Hfound Hq). cbn [fst snd].
    rewrite process_updates_cons, (step_answer yes CONFIRM) by done.
    unfold confirm_handler. rewrite Hyes. cbn [fst snd update_state].
    rewrite process_updates_cons, (step_answer a ASK_IMAGES) by done. cbn [fst snd].
    rewrite process_updates_cons, (step_answer b ASK_TRANSLATE) by done. cbn [fst snd].
    subst asked. unfold ask_images_handler, ask_translate_handler, with_user_data,
      reply_text, say. cbn. by rewrite <- !app_assoc. }
  split; [exact Hfour|]. split.
  - assert (Hsnoc : forall us u c w0 st0,
              process_updates (us ++ [u]) c w0 st0
              = process_update u (process_updates us c w0 st0).2
                  (process_updates us c w0 st0).1.1
                  (process_updates us c w0 st0).1.2).
    { induction us as [|u' us IH]; intros u c w0 st0.
      - simpl. by destruct (process_update u c w0 st0) as [[w2 st2] c2].
      - simpl. destruct (process_update u' c w0 st0) as [[w2 st2] c2]. apply IH. }
    change [UText q; UText yes; UText a; UText b; UText skip]
      with ([UText q; UText yes; UText a; UText b] ++ [UText skip]).
    rewrite Hsnoc, Hfour. cbn [fst snd]. rewrite step_answer by done.
    unfold ask_season_handler, parse_season. rewrite Hskip. subst final. simpl.
    by destruct (present i w1 _).
  - subst final. rewrite present_user_data. done.
Qed.

(** X23. Inside the lookup conversation a /cancel message is handled by the
    state's own text handler like any other answer (it declines the match,
    the images or the translation) and the cancel fallback is not reached;
    outside a conversation it is ignored. *)
Theorem cancel_is_taken_as_an_answer (text : string) (w : W) (st : State) :
  text <> "" ->
  is_yes text = false ->
  let u := UCommand "cancel" text in
  process_update u END w st = (w, st, END)
  /\ process_update u CONFIRM w st
     = (w, reply_text st "Okay, please refine your query.", END)
  /\ process_update u ASK_IMAGES w st
     = (w, reply_text (with_user_data st (set_images (user_data st) false))
             "Do you want to translate the synopsis to English? (Yes/No)",
        ASK_TRANSLATE)
  /\ process_update u ASK_TRANSLATE w st
     = (w, reply_text (with_user_data st (set_translate (user_data st) false))
             "If the series has multiple seasons, enter the season number (or type 'skip' to use default).",
        ASK_SEASON)
  /\ (forall c, c <> END -> process_update u c w st = process_update (UText text) c w st).
Proof.
  intros Htext Hno u. subst u. destruct text as [|t0 text]; [done|].
  unfold process_update, conv_handler, message_text. simpl.
  unfold confirm_handler, ask_images_handler, ask_translate_handler.
  rewrite Hno. repeat split; try done. by intros [].
Qed.
End WholeConversation.

Lemma lookup_conversation_witness :
  (@process_updates unit Samples.library
     [UText "naruto"; UText "Yes"; UText "no"; UText "y"; UText "Skip"]
     END tt Samples.nobody).2 = END.
Proof.
  assert (Hfound : exists i, @get_media_info unit Samples.library tt "naruto"
                             = (tt, Some i))
    by (eexists; vm_compute; reflexivity).
  destruct Hfound as [i Hfound].
  destruct (@lookup_conversation unit Samples.library "naruto" "Yes" "no" "y" "Skip"
              tt tt Samples.nobody i Hfound ltac:(discriminate) ltac:(discriminate)
              ltac:(discriminate) eq_refl eq_refl)
    as (_ & Hrun & _).
  rewrite Hrun. reflexivity.
Defined.

Lemma cancel_is_taken_as_an_answer_witness :
  (@process_update unit Samples.offline (UCommand "cancel" "/cancel") ASK_IMAGES tt
     Samples.asked).2 = ASK_TRANSLATE.
Proof.
  destruct (@cancel_is_taken_as_an_answer unit Samples.offline "/cancel" tt
              Samples.asked ltac:(discriminate) eq_refl) as (_ & _ & -> & _).
  reflexivity.
Defined.

End LookupExtra.

Module CgiFacts.
Import Py Cgi.

(** ** Headers *)

Lemma cgi_append_assoc (a c d : string) : (a +:+ c) +:+ d = a +:+ c +:+ d.
Proof.
  induction a as [|x a IH]; [reflexivity|].
  change (String x ((a +:+ c) +:+ d) = String x (a +:+ c +:+ d)). by rewrite IH.
Qed.

Lemma cgi_append_nil_r (s : string) : s +:+ "" = s.
Proof.
  induction s as [|a s IH]; [done|].
  change (String a (s +:+ "") = String a s). by rewrite IH.
Qed.

(** A text without a semicolon is one piece. *)
Lemma header_split_plain (cur s : string) :
  all_chars (fun c => negb (Ascii.eqb c ";")) s = true ->
  header_split false cur s = [cur +:+ s].
Proof.
  revert cur. induction s as [|c s IH]; intros cur Hs.
  - by rewrite cgi_append_nil_r.
  - cbn [all_chars] in Hs. apply andb_prop in Hs as [Hc Hs].
    cbn [header_split andb]. apply negb_true_iff in Hc. rewrite Hc.
    rewrite (IH _ Hs), cgi_append_assoc. done.
Qed.

Lemma header_split_skip (cur ws s : string) :
  all_chars is_space ws = true ->
  lstrip s = s ->
  header_split true cur (ws +:+ s) = header_split false cur s.
Proof.
  intros Hws Hs. induction ws as [|c ws IH].
  - destruct s as [|c s]; [done|]. cbn [lstrip] in Hs.
    destruct (is_space c) eqn:Hc.
    + exfalso. clear -Hs. assert (Hl : forall t, (String.length (lstrip t) <= String.length t)%nat).
      { induction t as [|x t IHt]; simpl; [lia|]. destruct (is_space x); simpl; lia. }
      specialize (Hl s). rewrite Hs in Hl. simpl in Hl. lia.
    + change ("" +:+ String c s) with (String c s).
      cbn [header_split]. by rewrite Hc.
  - cbn [all_chars] in Hws. apply andb_prop in Hws as [Hc Hws].
    change (String c ws +:+ s) with (String c (ws +:+ s)).
    cbn [header_split]. rewrite Hc. simpl. by apply IH.
Qed.

Lemma header_split_two (key ws item : string) :
  all_chars (fun c => negb (Ascii.eqb c ";")) key = true ->
  all_chars is_space ws = true ->
  all_chars (fun c => negb (Ascii.eqb c ";")) item = true ->
  lstrip item = item ->
  header_split false "" (key +:+ ";" +:+ ws +:+ item) = [key; item].
Proof.
  intros Hkey Hws Hitem Hclean.
  assert (Hgo : forall cur,
             header_split false cur (key +:+ ";" +:+ ws +:+ item)
             = (cur +:+ key) :: header_split true "" (ws +:+ item)).
  { induction key as [|c key IH]; intros cur.
    - by rewrite cgi_append_nil_r.
    - cbn [all_chars] in Hkey. apply andb_prop in Hkey as [Hc Hkey].
      apply negb_true_iff in Hc.
      change (String c key +:+ ";" +:+ ws +:+ item)
        with (String c (key +:+ ";" +:+ ws +:+ item)).
      cbn [header_split andb]. rewrite Hc, (IH Hkey), cgi_append_assoc. done. }
  rewrite Hgo, header_split_skip, header_split_plain by done. done.
Qed.

Lemma split_equals_at (k v : string) :
  all_chars (fun c => negb (Ascii.eqb c "=")) k = true ->
  split_equals (k +:+ "=" +:+ v) = Some (k, v).
Proof.
  induction k as [|c k IH]; intros Hk; [done|].
  cbn [all_chars] in Hk. apply andb_prop in Hk as [Hc Hk].
  apply negb_true_iff in Hc.
  change (String c k +:+ "=" +:+ v) with (String c (k +:+ "=" +:+ v)).
  cbn [split_equals]. rewrite Hc, (IH Hk). done.
Qed.

Lemma all_chars_append (p : ascii -> bool) (a b : string) :
  all_chars p (a +:+ b) = all_chars p a && all_chars p b.
Proof.
  induction a as [|x a IH]; [reflexivity|].
  change (p x && all_chars p (a +:+ b) = p x && all_chars p a && all_chars p b).
  by rewrite IH, andb_assoc.
Qed.

(** X24. parse_header of a line without a semicolon returns the stripped line
    and no parameters. *)
Theorem parse_header_plain (line : string) :
  all_chars (fun c => negb (Ascii.eqb c ";")) line = true ->
  parse_header line = (strip line, ∅).
Proof.
  intros Hline. unfold parse_header. by rewrite header_split_plain.
Qed.

Lemma parse_header_plain_witness :
  parse_header "  application/json " = ("application/json", ∅).
Proof. rewrite parse_header_plain by reflexivity. reflexivity. Defined.

(** X25. parse_header of a value followed by a semicolon, optional white space
    and one name=value parameter returns the stripped value and exactly that
    parameter, its name stripped and its value stripped of white space and
    of surrounding double quotes. *)
Theorem parse_header_parameter (key ws k v : string) :
  all_chars (fun c => negb (Ascii.eqb c ";")) key = true ->
  all_chars is_space ws = true ->
  all_chars (fun c => negb (Ascii.eqb c ";") && negb (Ascii.eqb c "=")) k = true ->
  lstrip k = k ->
  all_chars (fun c => negb (Ascii.eqb c ";")) v = true ->
  parse_header (key +:+ ";" +:+ ws +:+ k +:+ "=" +:+ v)
  = (strip key, {[strip k := strip_quotes (strip v)]}).
Proof.
  intros Hkey Hws Hk Hclean Hv.
  assert (Hk1 : all_chars (fun c => negb (Ascii.eqb c ";")) k = true
                /\ all_chars (fun c => negb (Ascii.eqb c "=")) k = true).
  { clear -Hk. induction k as [|c k IH]; [done|].
    cbn [all_chars] in *. apply andb_prop in Hk as [Hc Hk].
    apply andb_prop in Hc as [H1 H2]. destruct (IH Hk) as [-> ->].
    by rewrite H1, H2. }
  destruct Hk1 as [Hsemi Heq].
  unfold parse_header.
  rewrite (header_split_two key ws (k +:+ "=" +:+ v)); try done.
  - simpl. unfold add_param. by rewrite split_equals_at.
  - by rewrite !all_chars_append, Hsemi, Hv.
  - destruct k as [|c k]; [done|].
    change (String c k +:+ "=" +:+ v) with (String c (k +:+ "=" +:+ v)).
    cbn [lstrip] in *. destruct (is_space c) eqn:Hc; [|done].
    exfalso. clear -Hclean.
    assert (Hl : forall t, (String.length (lstrip t) <= String.length t)%nat).
    { induction t as [|x t IHt]; simpl; [lia|]. destruct (is_space x); simpl; lia. }
    specialize (Hl k). rewrite Hclean in Hl. simpl in Hl. lia.
Qed.

Lemma parse_header_parameter_witness :
  parse_header "text/html; charset=utf-8" = ("text/html", {["charset" := "utf-8"]}).
Proof.
  exact (parse_header_parameter "text/html" " " "charset" "utf-8"
           eq_refl eq_refl eq_refl eq_refl eq_refl).
Defined.

End CgiFacts.
